(** * dkb2ynab: conversion of DKB account exports into YNAB import files

    A shallow embedding of [dkb2ynab.py].  Python text is modelled as a
    [string] whose characters are the code points below 256; in that range
    the class [\d] of the [re] module is exactly ['0'..'9'].  The local work
    directory is a finite map from paths to files, the log is the list of
    records emitted at level INFO or above, and Python exceptions are an
    explicit [Raise] outcome of a state-and-exception monad. *)

From Stdlib Require Import NArith Ascii String List Lia Bool.
From stdpp Require Import base option list gmap strings.

Local Open Scope string_scope.
Local Open Scope N_scope.

(** ** Characters and decimal numbers *)

Definition chars (s : string) : list ascii := list_ascii_of_string s.
Definition text (l : list ascii) : string := string_of_list_ascii l.

Definition is_digit (c : ascii) : bool :=
  (48 <=? N_of_ascii c) && (N_of_ascii c <=? 57).

Definition digit_char (n : N) : ascii := ascii_of_N (48 + n mod 10).

(** [int(s)] for the captures of [strptime]: decimal digits, surrounding
    blanks ignored. *)
Fixpoint int_digits (acc : N) (l : list ascii) : option N :=
  match l with
  | [] => Some acc
  | c :: l' =>
      if is_digit c then int_digits (10 * acc + (N_of_ascii c - 48)) l'
      else None
  end.

Fixpoint lstrip (l : list ascii) : list ascii :=
  match l with
  | " "%char :: l' => lstrip l'
  | _ => l
  end.

Definition py_int (l : list ascii) : option N :=
  match lstrip l with
  | [] => None
  | l' => int_digits 0 l'
  end.

(** [%02d] and [%04d]: zero padded, never truncated. *)
Fixpoint dec_aux (fuel : nat) (n : N) (acc : list ascii) : list ascii :=
  match fuel with
  | O => acc
  | S f =>
      let acc' := digit_char n :: acc in
      if n / 10 =? 0 then acc' else dec_aux f (n / 10) acc'
  end.

Definition dec (n : N) : list ascii := dec_aux (S (N.to_nat (N.log2 n))) n [].

Definition zfill (w : nat) (l : list ascii) : list ascii :=
  repeat "0"%char (w - length l)%nat ++ l.

Definition pad2 (n : N) : string := text (zfill 2 (dec n)).
Definition pad4 (n : N) : string := text (zfill 4 (dec n)).

(** ** Exceptions

    The messages of exceptions raised by the library are shortened to their
    fixed part. *)

Inductive exn : Type :=
| ValueError (msg : string)
| TypeError (msg : string)
| AttributeError (msg : string)
| UnboundLocalError (var : string)
| IndexError
| FileNotFoundError (path : string)
| OSError (path : string)
| WebDavException (msg : string)
| OtherException (msg : string).

Definition exn_str (e : exn) : string :=
  match e with
  | ValueError m | TypeError m | AttributeError m
  | WebDavException m | OtherException m => m
  | UnboundLocalError v =>
      "cannot access local variable '" ++ v ++
      "' where it is not associated with a value"
  | IndexError => "list index out of range"
  | FileNotFoundError p | OSError p => p
  end.

(** [except WebDavException] catches only that class; [except Exception]
    catches every constructor above. *)
Definition is_webdav (e : exn) : bool :=
  match e with WebDavException _ => true | _ => false end.

Inductive result (A : Type) : Type :=
| Ok (a : A)
| Raise (e : exn).
Arguments Ok {A} a.
Arguments Raise {A} e.

(** ** The fragment of [re] that the program and [strptime] use *)

Inductive regex : Type :=
| Eps                         (* the empty expression *)
| Chr (c : ascii)             (* a literal character *)
| Cls (lo hi : ascii)         (* [lo-hi] *)
| Dig                         (* \d *)
| Bol                         (* ^ *)
| Eol                         (* $ *)
| Cat (r1 r2 : regex)
| Alt (r1 r2 : regex)
| Grp (name : string) (r : regex).   (* (?P<name>r) *)

Fixpoint rep (n : nat) (r : regex) : regex :=
  match n with
  | O => Eps
  | S n' => Cat r (rep n' r)
  end.

Definition in_class (lo hi c : ascii) : bool :=
  (N_of_ascii lo <=? N_of_ascii c) && (N_of_ascii c <=? N_of_ascii hi).

Definition groups := list (string * list ascii).

(** Backtracking matcher in continuation style: alternatives are tried in
    order, the first complete match wins.  [pre] is the text consumed so
    far, most recent character first. *)
Fixpoint run {A : Type} (r : regex) (pre s : list ascii) (g : groups)
    (k : list ascii -> list ascii -> groups -> option A) : option A :=
  match r with
  | Eps => k pre s g
  | Chr c =>
      match s with
      | x :: s' => if Ascii.eqb x c then k (x :: pre) s' g else None
      | [] => None
      end
  | Cls lo hi =>
      match s with
      | x :: s' => if in_class lo hi x then k (x :: pre) s' g else None
      | [] => None
      end
  | Dig =>
      match s with
      | x :: s' => if is_digit x then k (x :: pre) s' g else None
      | [] => None
      end
  | Bol => match pre with [] => k pre s g | _ => None end
  | Eol =>
      match s with
      | [] => k pre s g
      | [c] => if Ascii.eqb c "010"%char then k pre s g else None
      | _ => None
      end
  | Cat r1 r2 => run r1 pre s g (fun pre' s' g' => run r2 pre' s' g' k)
  | Alt r1 r2 =>
      match run r1 pre s g k with
      | Some a => Some a
      | None => run r2 pre s g k
      end
  | Grp name r1 =>
      run r1 pre s g (fun pre' s' g' =>
        k pre' s'
          ((name, rev (take (length pre' - length pre)%nat pre')) :: g'))
  end.

(** [re.match(r, s)]: a match anchored at position 0; the result carries
    the end position and the named groups. *)
Definition re_match (r : regex) (s : string) : option (nat * groups) :=
  run r [] (chars s) [] (fun pre _ g => Some (length pre, g)).

Definition matches (r : regex) (s : string) : bool :=
  match re_match r s with Some _ => true | None => false end.

Fixpoint group (name : string) (g : groups) : option (list ascii) :=
  match g with
  | [] => None
  | (n, v) :: g' => if String.eqb n name then Some v else group name g'
  end.

(** ** [datetime] *)

Record datetime : Type := mkdt {
  year : N; month : N; day : N;
  hour : N; minute : N; second : N
}.

Definition is_leap (y : N) : bool :=
  (y mod 4 =? 0) && (negb (y mod 100 =? 0) || (y mod 400 =? 0)).

Definition days_in_month (y m : N) : N :=
  match m with
  | 2 => if is_leap y then 29 else 28
  | 4 | 6 | 9 | 11 => 30
  | _ => 31
  end.

(** The constructor [datetime(year, month, day)] with its range checks. *)
Definition make_date (y m d : N) : result datetime :=
  if negb ((1 <=? y) && (y <=? 9999)) then
    Raise (ValueError "year is out of range")
  else if negb ((1 <=? m) && (m <=? 12)) then
    Raise (ValueError "month must be in 1..12")
  else if negb ((1 <=? d) && (d <=? days_in_month y m)) then
    Raise (ValueError "day is out of range for month")
  else Ok (mkdt y m d 0 0 0).

Definition dt_key (t : datetime) : list N :=
  [year t; month t; day t; hour t; minute t; second t].

Fixpoint lex_lt (a b : list N) : bool :=
  match a, b with
  | x :: a', y :: b' => (x <? y) || ((x =? y) && lex_lt a' b')
  | _, _ => false
  end.

Definition dt_lt (a b : datetime) : bool := lex_lt (dt_key a) (dt_key b).

(** [strftime('%Y-%m-%d')], [strftime('%Y%m%d')] and [str(datetime)].  The
    year is printed with four digits; every year the program formats is
    at least 1000. *)
Definition strftime_iso (t : datetime) : string :=
  pad4 (year t) ++ "-" ++ pad2 (month t) ++ "-" ++ pad2 (day t).

Definition strftime_compact (t : datetime) : string :=
  pad4 (year t) ++ pad2 (month t) ++ pad2 (day t).

Definition str_datetime (t : datetime) : string :=
  strftime_iso t ++ " " ++
  pad2 (hour t) ++ ":" ++ pad2 (minute t) ++ ":" ++ pad2 (second t).

(** The regular expressions [_strptime.TimeRE] builds for the directives
    used by the program. *)
Definition re_d : regex :=
  Grp "d" (Alt (Cat (Chr "3") (Cls "0" "1"))
          (Alt (Cat (Cls "1" "2") Dig)
          (Alt (Cat (Chr "0") (Cls "1" "9"))
          (Alt (Cls "1" "9")
               (Cat (Chr " ") (Cls "1" "9")))))).

Definition re_m : regex :=
  Grp "m" (Alt (Cat (Chr "1") (Cls "0" "2"))
          (Alt (Cat (Chr "0") (Cls "1" "9"))
               (Cls "1" "9"))).

Definition re_y : regex := Grp "y" (rep 2 Dig).
Definition re_Y : regex := Grp "Y" (rep 4 Dig).

(** ['%d.%m.%y'] and ['%Y%m%d']. *)
Definition fmt_dmy : regex :=
  Cat re_d (Cat (Chr ".") (Cat re_m (Cat (Chr ".") re_y))).
Definition fmt_Ymd : regex := Cat re_Y (Cat re_m re_d).

Definition group_int (name : string) (g : groups) : option N :=
  match group name g with
  | Some v => py_int v
  | None => None
  end.

(** The century rule of [%y]: values up to 68 belong to the 2000s, the
    others to the 1900s. *)
Definition pivot (y : N) : N := if y <=? 68 then y + 2000 else y + 1900.

(** [_strptime]: match the format's expression, insist that the whole text
    was consumed, read the groups, build the date. *)
Definition strptime (two_digit_year : bool) (fmt : regex) (s : string)
  : result datetime :=
  match re_match fmt s with
  | None => Raise (ValueError "time data does not match format")
  | Some (e, g) =>
      if negb (Nat.eqb (String.length s) e) then
        Raise (ValueError "unconverted data remains")
      else
        match group_int (if two_digit_year then "y" else "Y") g,
              group_int "m" g, group_int "d" g with
        | Some y, Some m, Some d =>
            let y' := if two_digit_year then pivot y else y in
            make_date y' m d
        | _, _, _ => Raise (ValueError "invalid literal for int()")
        end
  end.

Definition strptime_dmy : string -> result datetime := strptime true fmt_dmy.
Definition strptime_Ymd : string -> result datetime := strptime false fmt_Ymd.

(** ** Text operations of [str] *)

(** [s.replace(old, new)] for a one-character [old]. *)
Fixpoint str_replace (old : ascii) (new : string) (s : string) : string :=
  match s with
  | EmptyString => EmptyString
  | String c s' =>
      if Ascii.eqb c old then new ++ str_replace old new s'
      else String c (str_replace old new s')
  end.

Fixpoint starts_with (p s : string) : bool :=
  match p, s with
  | EmptyString, _ => true
  | String a p', String b s' => Ascii.eqb a b && starts_with p' s'
  | String _ _, EmptyString => false
  end.

(** [needle in hay]. *)
Fixpoint contains (needle hay : string) : bool :=
  starts_with needle hay ||
  match hay with
  | EmptyString => false
  | String _ hay' => contains needle hay'
  end.

(** [s.split(sep)] for a one-character [sep]. *)
Fixpoint split_on (sep : ascii) (s : string) : list string :=
  match s with
  | EmptyString => [EmptyString]
  | String c s' =>
      if Ascii.eqb c sep then EmptyString :: split_on sep s'
      else match split_on sep s' with
           | piece :: rest => String c piece :: rest
           | [] => [String c EmptyString]
           end
  end.

(** [Path(p).name]: the last component of a path. *)
Definition basename (p : string) : string :=
  List.last (split_on "/" p) EmptyString.

(** [str(x)] of a value that may be [None]. *)
Definition str_opt (o : option string) : string := default "None" o.

(** ** Files, log and the remote store *)

(** A row of the YNAB file, in the order of [ynab_csv_fieldnames]; a
    missing value is written as the empty text by [csv.DictWriter]. *)
Record ynab_row : Type := mk_ynab_row {
  Date : string;
  Payee : option string;
  Memo : option string;
  Amount : string
}.

Inductive ynab_line : Type :=
| Header                       (* Date,Payee,Memo,Amount *)
| Data (r : ynab_row).

(** What [csv.reader] yields for one record: the reader's [line_num] once
    the record is complete, and its fields. *)
Definition record : Type := nat * list string.

(** A local file: the records a reader with delimiter [;] finds in the
    text it had when it arrived, followed by the lines this program wrote
    to it. *)
Record file : Type := mk_file {
  foreign : list record;
  written : list ynab_line
}.

Definition export (recs : list record) : file := mk_file recs [].

Inductive level : Type := INFO | WARNING | ERROR.

Record log_record : Type := mk_log {
  lvl : level;
  fmt : string;
  args : list string
}.

Record world : Type := Build_world {
  files : gmap string file;         (* the local file system *)
  writable : string -> bool;        (* may this path be opened for writing *)
  remote : gmap string file;        (* the WebDAV store *)
  remote_parent : string -> bool;   (* does the folder that is to hold this
                                       remote path exist *)
  webdav_fault : option exn;        (* what a WebDAV request raises, if any *)
  log : list log_record
}.

(** A world whose remote store has every folder. *)
Definition mk_world (fs : gmap string file) (wr : string -> bool)
    (r : gmap string file) (fault : option exn) (l : list log_record)
  : world :=
  Build_world fs wr r (fun _ => true) fault l.

Definition set_files (f : gmap string file) (w : world) : world :=
  Build_world f (writable w) (remote w) (remote_parent w) (webdav_fault w)
    (log w).
Definition set_remote (r : gmap string file) (w : world) : world :=
  Build_world (files w) (writable w) r (remote_parent w) (webdav_fault w)
    (log w).
Definition add_log (l : log_record) (w : world) : world :=
  Build_world (files w) (writable w) (remote w) (remote_parent w)
    (webdav_fault w) (log w ++ [l]).

(** ** The monad of statements: state passing with exceptions *)

Definition M (A : Type) : Type := world -> result A * world.

Definition ret {A} (a : A) : M A := fun w => (Ok a, w).
Definition raise {A} (e : exn) : M A := fun w => (Raise e, w).
Definition bind {A B} (m : M A) (k : A -> M B) : M B :=
  fun w => match m w with
           | (Ok a, w') => k a w'
           | (Raise e, w') => (Raise e, w')
           end.

Notation "x <- m ;; k" := (bind m (fun x => k))
  (at level 100, m at next level, right associativity).
Notation "m ;;; k" := (bind m (fun _ => k))
  (at level 100, right associativity).

(** [try: m except Exception as e: h e]. *)
Definition try_except {A} (m : M A) (h : exn -> M A) : M A :=
  fun w => match m w with
           | (Ok a, w') => (Ok a, w')
           | (Raise e, w') => h e w'
           end.

(** [try: m except WebDavException as e: h e]. *)
Definition try_webdav {A} (m : M A) (h : exn -> M A) : M A :=
  try_except m (fun e => if is_webdav e then h e else raise e).

Definition logmsg (l : level) (f : string) (a : list string) : M unit :=
  fun w => (Ok tt, add_log (mk_log l f a) w).

(** Reading a local variable that may not have been assigned. *)
Definition local_var (name : string) (v : option string) : M string :=
  match v with
  | Some x => ret x
  | None => raise (UnboundLocalError name)
  end.

(** The module-level configuration: environment variables, the start-up
    date, and the reader's view of a file this program has written to. *)
Record config : Type := mk_config {
  workdir : string;
  ynab_folder : string;
  today : datetime;
  reread : file -> list record
}.

Definition datestamp (cfg : config) : string := strftime_compact (today cfg).

Definition csv_records (cfg : config) (f : file) : list record :=
  match written f with
  | [] => foreign f
  | _ => reread cfg f
  end.

(** [open(path, 'r')] with the reader over it.  The records are those of
    the file as it is when it is opened: this is what the loop reads as long
    as the program does not write to the path it is reading. *)
Definition open_read (cfg : config) (path : string) : M (list record) :=
  fun w => match files w !! path with
           | Some f => (Ok (csv_records cfg f), w)
           | None => (Raise (FileNotFoundError path), w)
           end.

(** [open(path, 'w')] followed by [writeheader()]. *)
Definition write_header (path : string) : M unit :=
  fun w => if writable w path
           then (Ok tt, set_files (<[path := mk_file [] [Header]]> (files w)) w)
           else (Raise (OSError path), w).

(** [open(path, 'a')] followed by [writerow(row)]. *)
Definition append_row (path : string) (r : ynab_row) : M unit :=
  fun w => if writable w path
           then let f := default (mk_file [] []) (files w !! path) in
                (Ok tt, set_files
                   (<[path := mk_file (foreign f) (written f ++ [Data r])]>
                      (files w)) w)
           else (Raise (OSError path), w).

(** [Path(path).unlink()] of a path that holds a regular file the process
    may remove, or nothing. *)
Definition unlink (path : string) : M unit :=
  fun w => match files w !! path with
           | Some _ => (Ok tt, set_files (delete path (files w)) w)
           | None => (Raise (FileNotFoundError path), w)
           end.

(** A request of the WebDAV client. *)
Definition webdav_request : M unit :=
  fun w => match webdav_fault w with
           | Some e => (Raise e, w)
           | None => (Ok tt, w)
           end.

(** [client.upload_sync(remote_path, local_path)]: the local file must
    exist, and so must the remote folder that is to hold the entry. *)
Definition upload_sync (remote_path local_path : string) : M unit :=
  webdav_request ;;;
  fun w => match files w !! local_path with
           | Some f =>
               if remote_parent w remote_path
               then (Ok tt, set_remote (<[remote_path := f]> (remote w)) w)
               else (Raise (WebDavException "RemoteParentNotFound"), w)
           | None => (Raise (WebDavException "LocalResourceNotFound"), w)
           end.

Definition upload_webdav_file (local_file remote_dir : string) : M unit :=
  let remote_filename := basename local_file in
  let remote_filepath := remote_dir ++ "/" ++ remote_filename in
  try_webdav
    (webdav_request ;;;
     upload_sync remote_filepath local_file ;;;
     logmsg INFO "Successfully uploaded file '%s' to WebDAV directory '%s'"
       [local_file; remote_dir])
    (fun e =>
       logmsg ERROR "Could not upload file '%s' to WebDAV directory '%s': %s"
         [local_file; remote_dir; exn_str e]).

(** ** [csv.DictReader] over the twelve DKB columns *)

Inductive column : Type :=
| Buchungsdatum | Wertstellung | Status
| Zahlungspflichtige      (* Zahlungspflichtige*r: the payer *)
| Zahlungsempfaenger      (* Zahlungsempfänger*in: the payee *)
| Verwendungszweck | Umsatztyp | IBAN
| Betrag                  (* Betrag (€) *)
| Glaeubiger_ID | Mandatsreferenz | Kundenreferenz.

Definition col_index (c : column) : nat :=
  match c with
  | Buchungsdatum => 0 | Wertstellung => 1 | Status => 2
  | Zahlungspflichtige => 3 | Zahlungsempfaenger => 4
  | Verwendungszweck => 5 | Umsatztyp => 6 | IBAN => 7 | Betrag => 8
  | Glaeubiger_ID => 9 | Mandatsreferenz => 10 | Kundenreferenz => 11
  end.

(** [row[c]] in the dictionary [dict(zip(fieldnames, row))] completed with
    [restval = None]. *)
Definition get (row : list string) (c : column) : option string :=
  row !! col_index c.

(** The rows [DictReader] yields, each with the value [line_num] has when
    the loop body runs: blank records are skipped, and [line_num] follows
    the underlying reader. *)
Definition dict_rows (recs : list record) : list (nat * list string) :=
  List.filter (fun r => match snd r with [] => false | _ => true end) recs.

(** ** [convert_data] *)

(** [r'^DE\d{20}$'] *)
Definition iban_re : regex :=
  Cat Bol (Cat (Chr "D") (Cat (Chr "E") (Cat (rep 20 Dig) Eol))).

(** [if start_date and end_date]: a [datetime] is always true, [None] is
    false. *)
Definition both (start_date end_date : option datetime)
  : option (datetime * datetime) :=
  match start_date, end_date with
  | Some s, Some e => Some (s, e)
  | _, _ => None
  end.

Definition output_name (cfg : config) (account_name iban : string)
    (start_date end_date : option datetime) : string :=
  match both start_date end_date with
  | Some (s, e) =>
      workdir cfg ++ "/" ++ datestamp cfg ++ "-" ++ account_name ++ "-" ++
      iban ++ "_" ++ str_datetime s ++ "_" ++ str_datetime e ++ ".csv"
  | None =>
      workdir cfg ++ "/" ++ datestamp cfg ++ "-" ++ account_name ++ "-" ++
      iban ++ ".csv"
  end.

(** Lines 94-125: the block run when [line_num == 1]; its value is the
    new binding of [ynab_file_name]. *)
Definition header_block (cfg : config)
    (start_date end_date : option datetime) (row : list string) : M string :=
  let account_name := get row Buchungsdatum in
  let iban := get row Wertstellung in
  logmsg INFO "Account name: %s" [str_opt account_name] ;;;
  logmsg INFO "IBAN: %s" [str_opt iban] ;;;
  match iban with
  | None => raise (TypeError "expected string or bytes-like object")
  | Some iban =>
      if negb (matches iban_re iban) then
        logmsg ERROR "Invalid IBAN: %s" [iban] ;;;
        raise (ValueError ("Invalid IBAN: " ++ iban))
      else
        let ynab_file_name :=
          output_name cfg (str_opt account_name) iban start_date end_date in
        logmsg INFO "Writing local YNAB CSV file: %s" [ynab_file_name] ;;;
        write_header ynab_file_name ;;;
        ret ynab_file_name
  end.

(** [row['Betrag (€)'].replace('.', '').replace(',', '.')] *)
Definition convert_amount (a : string) : string :=
  str_replace "," "." (str_replace "." "" a).

Definition outside (date : datetime) (range : option (datetime * datetime))
  : bool :=
  match range with
  | Some (s, e) => dt_lt date s || dt_lt e date
  | None => false
  end.

(** Lines 128-184: the block run when [line_num > 5].  Leaving it early
    is the [continue] of the source. *)
Definition transaction_block (start_date end_date : option datetime)
    (ynab_file_name : option string) (row : list string) : M unit :=
  date <- match get row Buchungsdatum with
          | Some s => fun w => (strptime_dmy s, w)
          | None => raise (TypeError "strptime() argument 1 must be str")
          end ;;
  let date_str := strftime_iso date in
  if outside date (both start_date end_date) then ret tt
  else
    amount <- match get row Betrag with
              | Some a => ret (convert_amount a)
              | None =>
                  raise (AttributeError
                           "'NoneType' object has no attribute 'replace'")
              end ;;
    let payee :=
      if bool_decide (get row Umsatztyp = Some "Eingang")
      then get row Zahlungspflichtige
      else get row Zahlungsempfaenger in
    let ynab_row := mk_ynab_row date_str payee (get row Verwendungszweck)
                      amount in
    summary <-
      (if bool_decide (get row Zahlungspflichtige = Some "DKB AG") then
         match get row Verwendungszweck with
         | Some memo => ret (contains "Kontostand/Rechnungsabschluss" memo)
         | None => raise (TypeError "argument of type 'NoneType' is not iterable")
         end
       else ret false) ;;
    if (summary : bool) then ret tt
    else
      name <- local_var "ynab_file_name" ynab_file_name ;;
      append_row name ynab_row.

(** One iteration of the loop over the reader's rows. *)
Definition loop_body (cfg : config) (start_date end_date : option datetime)
    (ynab_file_name : option string) (r : nat * list string)
  : M (option string) :=
  let '(line_num, row) := r in
  name <- (if Nat.eqb line_num 1
           then n <- header_block cfg start_date end_date row ;; ret (Some n)
           else ret ynab_file_name) ;;
  (if Nat.ltb 5 line_num
   then transaction_block start_date end_date name row
   else ret tt) ;;;
  ret name.

Fixpoint for_rows (cfg : config) (start_date end_date : option datetime)
    (rows : list (nat * list string)) (ynab_file_name : option string)
  : M (option string) :=
  match rows with
  | [] => ret ynab_file_name
  | r :: rest =>
      name <- loop_body cfg start_date end_date ynab_file_name r ;;
      for_rows cfg start_date end_date rest name
  end.

Definition convert_data (cfg : config) (file : string)
    (start_date end_date : option datetime) : M unit :=
  recs <- open_read cfg file ;;
  ynab_file_name <-
    for_rows cfg start_date end_date (dict_rows recs) None ;;
  try_except
    (name <- local_var "ynab_file_name" ynab_file_name ;;
     upload_webdav_file name (ynab_folder cfg))
    (fun e =>
       name <- local_var "ynab_file_name" ynab_file_name ;;
       logmsg ERROR "Failed to upload file %s (%s)" [name; exn_str e]) ;;;
  try_except
    (name <- local_var "ynab_file_name" ynab_file_name ;;
     unlink name ;;;
     logmsg INFO "Deleted local YNAB CSV file: %s" [name])
    (fun e =>
       name <- local_var "ynab_file_name" ynab_file_name ;;
       logmsg ERROR "Failed to delete file %s (%s)" [name; exn_str e]).

(** ** [convert_file] and the loop of [main] *)

(** [r'\d{8}-\d{8}\.csv'] *)
Definition filename_re : regex :=
  Cat (rep 8 Dig) (Cat (Chr "-") (Cat (rep 8 Dig) (Cat (Chr ".")
    (Cat (Chr "c") (Cat (Chr "s") (Chr "v")))))).

(** [l[i]] *)
Definition index (l : list string) (i : nat) : M string :=
  match l !! i with
  | Some x => ret x
  | None => raise IndexError
  end.

Definition convert_file (cfg : config) (file : string) : M unit :=
  let name := basename file in
  if matches filename_re name then
    start_date_str <- index (split_on "-" name) 0 ;;
    piece <- index (split_on "-" name) 1 ;;
    end_date_str <- index (split_on "." piece) 0 ;;
    start_date <- (fun w => (strptime_Ymd start_date_str, w)) ;;
    end_date <- (fun w => (strptime_Ymd end_date_str, w)) ;;
    try_except
      (convert_data cfg file (Some start_date) (Some end_date))
      (fun e =>
         logmsg ERROR
           "Failed to convert file %s with particular start and end range: %s"
           [name; exn_str e])
  else
    try_except
      (convert_data cfg file None None)
      (fun e =>
         logmsg ERROR "Failed to convert file '%s': %s" [name; exn_str e]) ;;;
    logmsg INFO "Deleting source CSV '%s' after successful conversion" [file] ;;;
    unlink file.

(** Lines 357-359: [for file in files: convert_file(file)]. *)
Fixpoint convert_all (cfg : config) (files : list string) : M unit :=
  match files with
  | [] => ret tt
  | file :: rest =>
      logmsg INFO "Converting file: %s" [file] ;;;
      convert_file cfg file ;;;
      convert_all cfg rest
  end.

(** ** [delete_webdav_file] and [download_webdav_files] *)

(** [client.clean(remote_path)] of the path of a file: a request that
    removes the entry; a path the store does not hold is answered with
    [RemoteResourceNotFound]. *)
Definition clean (remote_path : string) : M unit :=
  webdav_request ;;;
  fun w => match remote w !! remote_path with
           | Some _ => (Ok tt, set_remote (delete remote_path (remote w)) w)
           | None => (Raise (WebDavException "RemoteResourceNotFound"), w)
           end.

Definition delete_webdav_file (remote_file : string) : M unit :=
  try_webdav
    (clean remote_file ;;;
     logmsg INFO "Successfully deleted file '%s' from WebDAV" [remote_file])
    (fun e =>
       logmsg ERROR "Could not delete file '%s' from WebDAV (%s)"
         [remote_file; exn_str e]).

(** [client.download_sync(remote_path, local_path)]: the entry is looked
    up first, then the local file is opened for writing. *)
Definition download_sync (remote_path local_path : string) : M unit :=
  webdav_request ;;;
  fun w => match remote w !! remote_path with
           | Some f =>
               if writable w local_path
               then (Ok tt, set_files (<[local_path := f]> (files w)) w)
               else (Raise (OSError local_path), w)
           | None => (Raise (WebDavException "RemoteResourceNotFound"), w)
           end.

(** Lines 245-257: the body of the loop over [safe_files]. *)
Definition download_one (remote_dir local_dir webdav_file : string) : M unit :=
  let remote_filename := remote_dir ++ "/" ++ webdav_file in
  let local_filename := local_dir ++ "/" ++ webdav_file in
  try_webdav
    (download_sync remote_filename local_filename ;;;
     logmsg INFO "Successfully downloaded file '%s' from WebDAV directory '%s'"
       [webdav_file; remote_dir] ;;;
     delete_webdav_file remote_filename)
    (fun e =>
       logmsg ERROR "Could not download file '%s' from WebDAV directory '%s': %s"
         [webdav_file; remote_dir; exn_str e]).

Fixpoint download_each (remote_dir local_dir : string)
    (safe_files : list string) : M unit :=
  match safe_files with
  | [] => ret tt
  | webdav_file :: rest =>
      download_one remote_dir local_dir webdav_file ;;;
      download_each remote_dir local_dir rest
  end.

(** [not f.startswith('.')] *)
Definition visible (f : string) : bool := negb (starts_with "." f).

(** [client_list] is [client.list]: what it returns for a directory is the
    library's and the server's business, so it is a parameter. *)
Definition download_webdav_files (client_list : string -> M (list string))
    (remote_dir local_dir : string) : M unit :=
  try_webdav
    (webdav_request ;;;
     logmsg INFO "WebDAV directory '%s' exists. Retrieving contents..."
       [remote_dir] ;;;
     webdav_files <- client_list remote_dir ;;
     webdav_files <- match webdav_files with
                     | [] => raise IndexError
                     | _ :: rest => ret rest
                     end ;;
     let safe_files := List.filter visible webdav_files in
     match safe_files with
     | [] =>
         logmsg INFO "No new files found in WebDAV directory '%s'" [remote_dir]
     | _ => download_each remote_dir local_dir safe_files
     end)
    (fun e =>
       logmsg ERROR "WebDAV directory '%s' does not exist: %s"
         [remote_dir; exn_str e]).

(** ** The rows of a conversion, as a function of the input *)

(** Lines 128-170 without the file: what a row past line 5 contributes,
    [Ok None] standing for [continue]. *)
Definition row_result (start_date end_date : option datetime)
    (row : list string) : result (option ynab_row) :=
  match get row Buchungsdatum with
  | None => Raise (TypeError "strptime() argument 1 must be str")
  | Some s =>
      match strptime_dmy s with
      | Raise e => Raise e
      | Ok date =>
          if outside date (both start_date end_date) then Ok None
          else
            match get row Betrag with
            | None =>
                Raise (AttributeError
                         "'NoneType' object has no attribute 'replace'")
            | Some a =>
                let r :=
                  mk_ynab_row (strftime_iso date)
                    (if bool_decide (get row Umsatztyp = Some "Eingang")
                     then get row Zahlungspflichtige
                     else get row Zahlungsempfaenger)
                    (get row Verwendungszweck) (convert_amount a) in
                if bool_decide (get row Zahlungspflichtige = Some "DKB AG")
                then
                  match get row Verwendungszweck with
                  | Some memo =>
                      if contains "Kontostand/Rechnungsabschluss" memo
                      then Ok None else Ok (Some r)
                  | None =>
                      Raise (TypeError
                               "argument of type 'NoneType' is not iterable")
                  end
                else Ok (Some r)
            end
      end
  end.

(** The data row an input row gives, if any. *)
Definition kept_row (start_date end_date : option datetime)
    (r : nat * list string) : option ynab_row :=
  if Nat.ltb 5 (fst r) then
    match row_result start_date end_date (snd r) with
    | Ok o => o
    | Raise _ => None
    end
  else None.

(** A row after the header that raises nothing: it is not read at line 1,
    and if it is past line 5 its date and amount can be read. *)
Definition clean_row (start_date end_date : option datetime)
    (r : nat * list string) : bool :=
  negb (Nat.eqb (fst r) 1) &&
  (if Nat.ltb 5 (fst r) then
     match row_result start_date end_date (snd r) with
     | Ok _ => true
     | Raise _ => false
     end
   else true).

(** A German amount: digits and points with at least one digit, a comma,
    digits. *)
Definition digit_or_point (c : ascii) : bool :=
  is_digit c || Ascii.eqb c ".".


(** ** Predicates used to state the properties *)

(** Lines 165-169: the row is the bank's balance summary. *)
Definition balance_footer (row : list string) : bool :=
  bool_decide (get row Zahlungspflichtige = Some "DKB AG") &&
  match get row Verwendungszweck with
  | Some memo => contains "Kontostand/Rechnungsabschluss" memo
  | None => false
  end.

(** The content of a file after one more data row. *)
Definition with_row (o : option file) (r : ynab_row) : file :=
  let f := default (mk_file [] []) o in
  mk_file (foreign f) (written f ++ [Data r]).

(** The specification's readings of three notions, for comparison with
    the code. *)

(** The specification's "valid decimal numeral": an optional sign, digits,
    and optionally a point followed by digits. *)
Definition spec_digits (s : string) : bool :=
  match chars s with
  | [] => false
  | l => forallb is_digit l
  end.

Definition spec_decimal_numeral (s : string) : bool :=
  let unsigned :=
    match s with
    | String "-" s' | String "+" s' => s'
    | _ => s
    end in
  match split_on "." unsigned with
  | [i] => spec_digits i
  | [i; f] => spec_digits i && spec_digits f
  | _ => false
  end.

Definition not_point (c : ascii) : bool := negb (Ascii.eqb c ".").
Definition comma_to_point (c : ascii) : ascii :=
  if Ascii.eqb c "," then "."%char else c.

(** The ranged name of the specification's naming contract:
    [<YYYYMMDD-run-date>-<accountName>-<iban>_<YYYYMMDD-start>_<YYYYMMDD-end>.csv]. *)
Definition spec_ranged_name (cfg : config) (account_name iban : string)
    (start_date end_date : datetime) : string :=
  datestamp cfg ++ "-" ++ account_name ++ "-" ++ iban ++ "_" ++
  strftime_compact start_date ++ "_" ++ strftime_compact end_date ++ ".csv".

(** The specification's trigger: the whole name is eight digits, a hyphen,
    eight digits and [.csv]. *)
Definition spec_whole_name (name : string) : bool :=
  let l := chars name in
  Nat.eqb (length l) 21 &&
  forallb is_digit (take 8 l) &&
  bool_decide (l !! 8%nat = Some "-"%char) &&
  forallb is_digit (take 8 (drop 9 l)) &&
  bool_decide (drop 17 l = chars ".csv").

(** The first element of [s.split(sep)]. *)
Fixpoint first_piece (sep : ascii) (s : string) : string :=
  match s with
  | EmptyString => EmptyString
  | String c s' =>
      if Ascii.eqb c sep then EmptyString else String c (first_piece sep s')
  end.

(** Enumeration of the two-digit dates. *)





(** ** Sample data *)

Definition demo_cfg : config :=
  mk_config "/work" "ynab" (mkdt 2024 2 1 0 0 0) (fun _ => []).

Definition dkb_row (date payer payee memo kind amount : string)
  : list string :=
  [date; date; "Gebucht"; payer; payee; memo; kind; "DE02120300000000202051";
   amount; ""; ""; ""].

Definition salary_row : list string :=
  dkb_row "02.01.24" "Arbeitgeber GmbH" "Erika Mustermann" "Gehalt"
    "Eingang" "1.234,56".

Definition shop_row : list string :=
  dkb_row "15.02.24" "Erika Mustermann" "Buchladen" "Rechnung 17"
    "Ausgang" "-12,00".

Definition footer_row : list string :=
  dkb_row "31.01.24" "DKB AG" "Erika Mustermann"
    "Kontostand/Rechnungsabschluss vom 31.01.2024" "Eingang" "0,00".

Definition header_row (iban : string) : list string := ["Girokonto"; iban].

Definition preamble : list record :=
  [(2, [""])%nat; (3, ["Kontostand vom 01.02.2024:"; "1.000,00 EUR"])%nat;
   (4, [""])%nat; (5, ["Buchungsdatum"; "Wertstellung"; "Status"])%nat].

Definition demo_records (iban : string) : list record :=
  (1%nat, header_row iban) :: preamble ++
  [(6%nat, salary_row); (7%nat, shop_row); (8%nat, footer_row)].

Definition demo_world (path : string) (recs : list record) : world :=
  mk_world {[ path := export recs ]} (fun _ => true) ∅ None [].


Definition odd_amount_row : list string :=
  dkb_row "02.01.24" "Erika Mustermann" "Buchladen" "Rechnung 18"
    "Ausgang" "12,34,56".

Definition odd_amount_records : list record :=
  (1%nat, header_row "DE12345678901234567890") :: preamble ++
  [(6%nat, odd_amount_row)].


(** Further sample data. *)

Definition demo_rows : list (nat * list string) :=
  preamble ++ [(6%nat, salary_row); (7%nat, shop_row); (8%nat, footer_row)].

Definition faulty_world (path : string) (recs : list record) (e : exn)
  : world :=
  mk_world {[ path := export recs ]} (fun _ => true) ∅ (Some e) [].


Definition blank_first_records : list record :=
  [(1%nat, []); (2%nat, header_row "DE12345678901234567890");
   (7%nat, salary_row)].

Definition listing (names : list string) : string -> M (list string) :=
  fun _ w => (Ok names, w).

Definition mailbox_world : world :=
  mk_world ∅ (fun _ => true)
    {[ "csv/export.csv" := export (demo_records "DE12345678901234567890");
       "csv/.DS_Store" := export [] ;
       "csv/" := export [] ]}
    None [].


Definition stale_world : world :=
  mk_world
    {[ "/work/20240201-Girokonto-DE12345678901234567890.csv" :=
         mk_file [] [Header; Data (mk_ynab_row "2023-12-31" None None "1.00")] ]}
    (fun _ => true) ∅ None [].

(** * Properties *)

Ltac unfold_m :=
  unfold local_var, index, try_webdav in *;
  unfold bind, ret, raise, logmsg, try_except,
    append_row, write_header, unlink, open_read in *.

Lemma ltb_5_not_1 (n : nat) : (5 < n)%nat ->
  Nat.eqb n 1 = false /\ Nat.ltb 5 n = true.
Proof.
  intros H. split.
  - apply Nat.eqb_neq. lia.
  - apply Nat.ltb_lt. lia.
Qed.

Lemma get_memo_of_amount (row : list string) (a : string) :
  get row Betrag = Some a -> exists memo, get row Verwendungszweck = Some memo.
Proof.
  unfold get; simpl. intros H.
  apply lookup_lt_Some in H.
  destruct (lookup_lt_is_Some_2 row 5) as [memo Hm]; [lia | eauto].
Qed.

(** The iteration on a row that passes every test of lines 128-170 appends
    exactly one data row to the output file and changes nothing else. *)
Lemma transaction_written cfg sd ed name ln row w s date a :
  (5 < ln)%nat ->
  get row Buchungsdatum = Some s ->
  strptime_dmy s = Ok date ->
  outside date (both sd ed) = false ->
  get row Betrag = Some a ->
  balance_footer row = false ->
  writable w name = true ->
  loop_body cfg sd ed (Some name) (ln, row) w =
    (Ok (Some name),
     set_files
       (<[name := with_row (files w !! name)
            (mk_ynab_row (strftime_iso date)
               (if bool_decide (get row Umsatztyp = Some "Eingang")
                then get row Zahlungspflichtige
                else get row Zahlungsempfaenger)
               (get row Verwendungszweck) (convert_amount a))]> (files w)) w).
Proof.
  intros Hln Hs Hd Hout Ha Hf Hw.
  destruct (ltb_5_not_1 ln Hln) as [E1 E5].
  destruct (get_memo_of_amount row a Ha) as [memo Hm].
  unfold loop_body, transaction_block. rewrite E1, E5.
  unfold balance_footer in Hf. rewrite Hm in Hf.
  unfold_m. rewrite Hs, Hd, Hout, Ha, Hm.
  destruct (bool_decide (get row Zahlungspflichtige = Some "DKB AG")); simpl in Hf.
  - rewrite Hf. simpl. rewrite Hw. reflexivity.
  - simpl. rewrite Hw. reflexivity.
Qed.

(** C1. For every row accepted as a transaction (line number above 5,
    booking date parsed, inside the active date range if there is one, not
    the balance footer, amount present), the row appended to the output
    file has as [Payee] the payer field when the transaction type is
    'Eingang', and the payee field otherwise. *)
Theorem payee_follows_direction cfg sd ed name ln row w s date a :
  (5 < ln)%nat ->
  get row Buchungsdatum = Some s ->
  strptime_dmy s = Ok date ->
  outside date (both sd ed) = false ->
  get row Betrag = Some a ->
  balance_footer row = false ->
  writable w name = true ->
  exists r,
    loop_body cfg sd ed (Some name) (ln, row) w =
      (Ok (Some name),
       set_files (<[name := with_row (files w !! name) r]> (files w)) w) /\
    (get row Umsatztyp = Some "Eingang" ->
       Payee r = get row Zahlungspflichtige) /\
    (get row Umsatztyp <> Some "Eingang" ->
       Payee r = get row Zahlungsempfaenger).
Proof.
  intros Hln Hs Hd Hout Ha Hf Hw.
  eexists. split.
  - eapply transaction_written; eassumption.
  - simpl. split; intros H.
    + rewrite bool_decide_eq_true_2; auto.
    + rewrite bool_decide_eq_false_2; auto.
Qed.

Lemma payee_follows_direction_witness :
  exists r,
    loop_body demo_cfg None None (Some "/work/out.csv") (6%nat, salary_row)
      (demo_world "/work/export.csv" []) =
      (Ok (Some "/work/out.csv"),
       set_files
         (<["/work/out.csv" :=
              with_row (files (demo_world "/work/export.csv" [])
                          !! "/work/out.csv") r]>
            (files (demo_world "/work/export.csv" [])))
         (demo_world "/work/export.csv" [])) /\
    (get salary_row Umsatztyp = Some "Eingang" ->
       Payee r = get salary_row Zahlungspflichtige) /\
    (get salary_row Umsatztyp <> Some "Eingang" ->
       Payee r = get salary_row Zahlungsempfaenger).
Proof.
  apply (payee_follows_direction demo_cfg None None "/work/out.csv" 6
           salary_row (demo_world "/work/export.csv" [])
           "02.01.24" (mkdt 2024 1 2 0 0 0) "1.234,56");
    [lia | reflexivity ..].
Defined.

(** ** Dates *)

Example strptime_dmy_ex :
  strptime_dmy "02.01.24" = Ok (mkdt 2024 1 2 0 0 0).
Proof. reflexivity. Qed.






Lemma strptime_raises_value_error b f s e :
  strptime b f s = Raise e -> exists msg, e = ValueError msg.
Proof.
  unfold strptime, make_date.
  repeat match goal with
         | |- context [match ?x with _ => _ end] => destruct x
         end; intros H; inversion H; eauto.
Qed.

(** ** The loop over the rows *)

Lemma for_rows_app cfg sd ed pre post fn w :
  for_rows cfg sd ed (pre ++ post) fn w =
    match for_rows cfg sd ed pre fn w with
    | (Ok fn', w') => for_rows cfg sd ed post fn' w'
    | (Raise e, w') => (Raise e, w')
    end.
Proof.
  revert fn w. induction pre as [| r pre IH]; intros fn w; simpl.
  - reflexivity.
  - unfold bind.
    destruct (loop_body cfg sd ed fn r w) as [[fn1 | e] w1]; [apply IH | reflexivity].
Qed.







(** ** Amounts *)

Lemma chars_remove_points (s : string) :
  chars (str_replace "." "" s) = List.filter not_point (chars s).
Proof.
  unfold chars. induction s as [| c s IH]; simpl; [reflexivity |].
  unfold not_point at 1. destruct (Ascii.eqb c "."); simpl.
  - exact IH.
  - now rewrite IH.
Qed.

Lemma chars_commas_to_points (s : string) :
  chars (str_replace "," "." s) = List.map comma_to_point (chars s).
Proof.
  unfold chars. induction s as [| c s IH]; simpl; [reflexivity |].
  unfold comma_to_point at 1.
  destruct (Ascii.eqb c ","); rewrite <- IH; reflexivity.
Qed.

Lemma chars_convert_amount (a : string) :
  chars (convert_amount a) =
    List.map comma_to_point (List.filter not_point (chars a)).
Proof.
  unfold convert_amount. now rewrite chars_commas_to_points, chars_remove_points.
Qed.

(** C3 (as amended). The amount conversion removes every '.' and turns
    every ',' into '.', so "1.234,56" gives "1234.56" and "-12,00" gives
    "-12.00"; the resulting text is written to the [Amount] field of an
    accepted row as it is, whatever it is. *)
Theorem amount_conversion cfg sd ed name ln row w s date a :
  (5 < ln)%nat ->
  get row Buchungsdatum = Some s ->
  strptime_dmy s = Ok date ->
  outside date (both sd ed) = false ->
  get row Betrag = Some a ->
  balance_footer row = false ->
  writable w name = true ->
  convert_amount "1.234,56" = "1234.56" /\
  convert_amount "-12,00" = "-12.00" /\
  chars (convert_amount a) =
    List.map comma_to_point (List.filter not_point (chars a)) /\
  exists r,
    loop_body cfg sd ed (Some name) (ln, row) w =
      (Ok (Some name),
       set_files (<[name := with_row (files w !! name) r]> (files w)) w) /\
    Amount r = convert_amount a.
Proof.
  intros Hln Hs Hd Hout Ha Hf Hw.
  split; [reflexivity |]. split; [reflexivity |].
  split; [apply chars_convert_amount |].
  eexists. split.
  - eapply transaction_written; eassumption.
  - reflexivity.
Qed.

Lemma amount_conversion_witness :
  convert_amount "1.234,56" = "1234.56" /\
  convert_amount "-12,00" = "-12.00" /\
  chars (convert_amount "12,34,56") =
    List.map comma_to_point (List.filter not_point (chars "12,34,56")) /\
  exists r,
    loop_body demo_cfg None None (Some "/work/out.csv") (6%nat, odd_amount_row)
      (demo_world "/work/export.csv" []) =
      (Ok (Some "/work/out.csv"),
       set_files
         (<["/work/out.csv" :=
              with_row (files (demo_world "/work/export.csv" [])
                          !! "/work/out.csv") r]>
            (files (demo_world "/work/export.csv" [])))
         (demo_world "/work/export.csv" [])) /\
    Amount r = convert_amount "12,34,56".
Proof.
  apply (amount_conversion demo_cfg None None "/work/out.csv" 6
           odd_amount_row (demo_world "/work/export.csv" [])
           "02.01.24" (mkdt 2024 1 2 0 0 0) "12,34,56");
    [lia | reflexivity ..].
Defined.

(** The file whose only transaction has the amount "12,34,56" converts
    without error, and the row is uploaded with the amount "12.34.56",
    which is no decimal numeral. *)
Lemma malformed_amount_is_written :
  spec_decimal_numeral (convert_amount "12,34,56") = false /\
  fst (convert_data demo_cfg "/work/export.csv" None None
         (demo_world "/work/export.csv" odd_amount_records)) = Ok tt /\
  remote (snd (convert_data demo_cfg "/work/export.csv" None None
                 (demo_world "/work/export.csv" odd_amount_records)))
    !! "ynab/20240201-Girokonto-DE12345678901234567890.csv" =
    Some (mk_file []
            [Header;
             Data (mk_ynab_row "2024-01-02" (Some "Buchladen")
                     (Some "Rechnung 18") "12.34.56")]).
Proof. repeat split; vm_compute; reflexivity. Qed.

(** ** The header row *)





(** ** The balance footer *)

Lemma footer_step cfg sd ed fn ln row w :
  (5 < ln)%nat ->
  balance_footer row = true ->
  loop_body cfg sd ed fn (ln, row) w = (Ok fn, w) \/
  exists e, loop_body cfg sd ed fn (ln, row) w = (Raise e, w).
Proof.
  intros Hln Hf.
  destruct (ltb_5_not_1 ln Hln) as [E1 E5].
  unfold balance_footer in Hf. apply andb_true_iff in Hf as [Hp Hm].
  destruct (get row Verwendungszweck) as [memo |] eqn:Ememo; [| discriminate].
  unfold loop_body, transaction_block. rewrite E1, E5, Hp, Ememo, Hm.
  unfold_m.
  destruct (get row Buchungsdatum) as [s |]; [| right; eauto].
  destruct (strptime_dmy s) as [date | e]; [| right; eauto].
  destruct (outside date (both sd ed)); [left; reflexivity |].
  destruct (get row Betrag) as [a |]; [left; reflexivity | right; eauto].
Qed.

(** C5. A row past line 5 whose payer is 'DKB AG' and whose memo contains
    'Kontostand/Rechnungsabschluss' leaves every file as it was, and a
    conversion that completes gives, wherever the row stands, the result
    it gives without the row. *)
Theorem balance_footer_excluded cfg sd ed
    (pre post : list (nat * list string)) ln row :
  (5 < ln)%nat ->
  get row Zahlungspflichtige = Some "DKB AG" ->
  (exists memo, get row Verwendungszweck = Some memo /\
                contains "Kontostand/Rechnungsabschluss" memo = true) ->
  (forall fn w, snd (loop_body cfg sd ed fn (ln, row) w) = w) /\
  (forall fn w fn' w',
     for_rows cfg sd ed (pre ++ (ln, row) :: post) fn w = (Ok fn', w') ->
     for_rows cfg sd ed (pre ++ post) fn w = (Ok fn', w')).
Proof.
  intros Hln Hp [memo [Hm Hc]].
  assert (Hf : balance_footer row = true).
  { unfold balance_footer. rewrite Hm, Hc, bool_decide_eq_true_2; auto. }
  split.
  - intros fn w.
    destruct (footer_step cfg sd ed fn ln row w Hln Hf) as [H | [e H]];
      now rewrite H.
  - intros fn w fn' w'. rewrite !for_rows_app.
    destruct (for_rows cfg sd ed pre fn w) as [[fn1 | e1] w1]; [| auto].
    cbn [for_rows]. unfold bind at 1.
    destruct (footer_step cfg sd ed fn1 ln row w1 Hln Hf) as [H | [e H]];
      rewrite H; [auto | discriminate].
Qed.

Lemma balance_footer_excluded_witness :
  (forall fn w,
     snd (loop_body demo_cfg None None fn (8%nat, footer_row) w) = w) /\
  (forall fn w fn' w',
     for_rows demo_cfg None None
       ([(6%nat, salary_row)] ++ (8%nat, footer_row) :: [(9%nat, shop_row)])
       fn w = (Ok fn', w') ->
     for_rows demo_cfg None None
       ([(6%nat, salary_row)] ++ [(9%nat, shop_row)]) fn w = (Ok fn', w')).
Proof.
  apply (balance_footer_excluded demo_cfg None None
           [(6%nat, salary_row)] [(9%nat, shop_row)] 8 footer_row);
    [lia | reflexivity |].
  exists "Kontostand/Rechnungsabschluss vom 31.01.2024".
  split; reflexivity.
Defined.

(** ** The name of the output file *)

Lemma strptime_midnight b f s t :
  strptime b f s = Ok t -> hour t = 0 /\ minute t = 0 /\ second t = 0.
Proof.
  unfold strptime, make_date.
  repeat match goal with
         | |- context [match ?x with _ => _ end] => destruct x
         end; intros H; inversion H; auto.
Qed.

Lemma str_datetime_midnight b f s t :
  strptime b f s = Ok t -> str_datetime t = strftime_iso t ++ " 00:00:00".
Proof.
  intros H. apply strptime_midnight in H as (Hh & Hm & Hs).
  unfold str_datetime. now rewrite Hh, Hm, Hs.
Qed.

(** C6 (as amended). In a run with a date range, the header row binds the
    output path to
    [<workdir>/<datestamp>-<accountName>-<iban>_<start>_<end>.csv] where
    start and end are printed as [str(datetime)] prints them, that is as
    [YYYY-MM-DD 00:00:00], and the file is created there with the column
    header. *)
Theorem ranged_output_name cfg fn row account_name iban w ss es s e :
  strptime_Ymd ss = Ok s ->
  strptime_Ymd es = Ok e ->
  get row Buchungsdatum = Some account_name ->
  get row Wertstellung = Some iban ->
  matches iban_re iban = true ->
  writable w
    (workdir cfg ++ "/" ++ datestamp cfg ++ "-" ++ account_name ++ "-" ++
     iban ++ "_" ++ (strftime_iso s ++ " 00:00:00") ++ "_" ++
     (strftime_iso e ++ " 00:00:00") ++ ".csv") = true ->
  exists w',
    loop_body cfg (Some s) (Some e) fn (1%nat, row) w =
      (Ok (Some
             (workdir cfg ++ "/" ++ datestamp cfg ++ "-" ++ account_name ++
              "-" ++ iban ++ "_" ++ (strftime_iso s ++ " 00:00:00") ++ "_" ++
              (strftime_iso e ++ " 00:00:00") ++ ".csv")), w') /\
    files w' =
      <[workdir cfg ++ "/" ++ datestamp cfg ++ "-" ++ account_name ++ "-" ++
        iban ++ "_" ++ (strftime_iso s ++ " 00:00:00") ++ "_" ++
        (strftime_iso e ++ " 00:00:00") ++ ".csv" := mk_file [] [Header]]>
        (files w).
Proof.
  intros Hs He Ha Hi Hm Hw.
  rewrite <- (str_datetime_midnight _ _ _ _ Hs) in *.
  rewrite <- (str_datetime_midnight _ _ _ _ He) in *.
  unfold loop_body, header_block, output_name.
  simpl Nat.eqb. simpl Nat.ltb. cbv iota.
  rewrite Ha, Hi, Hm. simpl both. cbv iota beta. simpl str_opt. simpl negb.
  cbv iota.
  unfold_m. simpl writable. rewrite Hw.
  eexists. split; reflexivity.
Qed.

Lemma ranged_output_name_witness :
  exists w',
    loop_body demo_cfg (Some (mkdt 2024 1 1 0 0 0)) (Some (mkdt 2024 1 31 0 0 0))
      None (1%nat, header_row "DE12345678901234567890")
      (demo_world "/work/20240101-20240131.csv" []) =
      (Ok (Some "/work/20240201-Girokonto-DE12345678901234567890_2024-01-01 00:00:00_2024-01-31 00:00:00.csv"),
       w') /\
    files w' =
      <["/work/20240201-Girokonto-DE12345678901234567890_2024-01-01 00:00:00_2024-01-31 00:00:00.csv"
        := mk_file [] [Header]]>
        (files (demo_world "/work/20240101-20240131.csv" [])).
Proof.
  apply (ranged_output_name demo_cfg None
           (header_row "DE12345678901234567890") "Girokonto"
           "DE12345678901234567890"
           (demo_world "/work/20240101-20240131.csv" [])
           "20240101" "20240131"
           (mkdt 2024 1 1 0 0 0) (mkdt 2024 1 31 0 0 0));
    reflexivity.
Defined.

(** The file uploaded for [20240101-20240131.csv] does not carry the name
    of the naming contract. *)
Lemma ranged_name_is_not_compact :
  map fst (map_to_list (remote (snd
    (convert_file demo_cfg "/work/20240101-20240131.csv"
       (demo_world "/work/20240101-20240131.csv"
          (demo_records "DE12345678901234567890")))))) =
    ["ynab/20240201-Girokonto-DE12345678901234567890_2024-01-01 00:00:00_2024-01-31 00:00:00.csv"] /\
  spec_ranged_name demo_cfg "Girokonto" "DE12345678901234567890"
    (mkdt 2024 1 1 0 0 0) (mkdt 2024 1 31 0 0 0) =
    "20240201-Girokonto-DE12345678901234567890_20240101_20240131.csv" /\
  basename "ynab/20240201-Girokonto-DE12345678901234567890_2024-01-01 00:00:00_2024-01-31 00:00:00.csv" <>
  spec_ranged_name demo_cfg "Girokonto" "DE12345678901234567890"
    (mkdt 2024 1 1 0 0 0) (mkdt 2024 1 31 0 0 0).
Proof.
  split; [vm_compute; reflexivity |].
  split; [vm_compute; reflexivity |].
  vm_compute. discriminate.
Qed.

(** ** What the two patterns of the program match *)

Lemma run_rep_dig {A : Type} (n : nat) (pre s : list ascii) (g : groups)
    (k : list ascii -> list ascii -> groups -> option A) :
  run (rep n Dig) pre s g k =
    if (n <=? length s)%nat && forallb is_digit (take n s)
    then k (rev (take n s) ++ pre)%list (drop n s) g
    else None.
Proof.
  revert pre s. induction n as [| n IH]; intros pre s.
  - reflexivity.
  - cbn [rep run]. destruct s as [| x s]; [reflexivity |].
    cbn [length take drop forallb rev]. 
    destruct (is_digit x) eqn:Ex.
    + rewrite IH. rewrite <- app_assoc. simpl. 
      change (S n <=? S (length s))%nat with (n <=? length s)%nat. reflexivity.
    + now rewrite andb_false_r.
Qed.

Lemma matches_filename_re (name : string) :
  matches filename_re name = true <->
  exists d1 d2 tail,
    chars name = (d1 ++ "-"%char :: d2 ++ chars ".csv" ++ tail)%list /\
    length d1 = 8%nat /\ length d2 = 8%nat /\
    forallb is_digit d1 = true /\ forallb is_digit d2 = true.
Proof.
  unfold matches, re_match, filename_re. generalize (chars name) as l. intros l.
  cbn [run]. rewrite run_rep_dig.
  split.
  - destruct ((8 <=? length l)%nat && forallb is_digit (take 8 l)) eqn:E1; [| discriminate].
    apply andb_true_iff in E1 as [L1 D1]. apply Nat.leb_le in L1.
    destruct (drop 8 l) as [| c rest] eqn:El; [discriminate |].
    destruct (Ascii.eqb_spec c "-"); [subst c | discriminate].
    rewrite run_rep_dig.
    destruct ((8 <=? length rest)%nat && forallb is_digit (take 8 rest)) eqn:E2; [| discriminate].
    apply andb_true_iff in E2 as [L2 D2]. apply Nat.leb_le in L2.
    destruct (drop 8 rest) as [| c1 [| c2 [| c3 [| c4 tail]]]] eqn:Er; try discriminate;
    repeat match goal with |- context [Ascii.eqb ?a ?b] => destruct (Ascii.eqb_spec a b); [subst a|] end; try discriminate.
    intros _. exists (take 8 l), (take 8 rest), tail.
    rewrite !length_take. repeat split; auto; try lia.
    rewrite <- (take_drop 8 l) at 1. rewrite El. f_equal. f_equal.
    rewrite <- (take_drop 8 rest) at 1. rewrite Er. reflexivity.
  - intros (d1 & d2 & tail & -> & H1 & H2 & D1 & D2).
    rewrite length_app. rewrite take_app_length' by (symmetry; assumption).
    rewrite drop_app_length' by (symmetry; assumption).
    replace (8 <=? length d1 + _)%nat with true by (symmetry; apply Nat.leb_le; lia).
    rewrite D1. cbn [andb]. simpl Ascii.eqb. cbv iota.
    rewrite run_rep_dig.
    rewrite length_app. rewrite take_app_length' by (symmetry; assumption).
    rewrite drop_app_length' by (symmetry; assumption).
    replace (8 <=? length d2 + _)%nat with true by (symmetry; apply Nat.leb_le; lia).
    rewrite D2. reflexivity.
Qed.

Lemma matches_iban_re (s : string) :
  matches iban_re s = true <->
  exists ds,
    length ds = 20%nat /\ forallb is_digit ds = true /\
    (chars s = "D"%char :: "E"%char :: ds \/
     chars s = ("D"%char :: "E"%char :: ds ++ ["010"%char])%list).
Proof.
  unfold matches, re_match, iban_re. generalize (chars s) as l. intros l.
  cbn [run]. split.
  - destruct l as [| c1 [| c2 rest]]; try discriminate.
    { destruct (Ascii.eqb c1 "D"); discriminate. }
    destruct (Ascii.eqb_spec c1 "D"); [subst c1 | discriminate].
    destruct (Ascii.eqb_spec c2 "E"); [subst c2 | discriminate].
    rewrite run_rep_dig.
    destruct ((20 <=? length rest)%nat && forallb is_digit (take 20 rest)) eqn:E;
      [| discriminate].
    apply andb_true_iff in E as [L D]. apply Nat.leb_le in L.
    destruct (drop 20 rest) as [| c [| c' tail]] eqn:Er; try discriminate.
    + intros _. exists (take 20 rest). rewrite length_take.
      repeat split; auto; [lia |]. left.
      rewrite <- (take_drop 20 rest) at 1. rewrite Er. now rewrite app_nil_r.
    + destruct (Ascii.eqb_spec c "010"); [subst c | discriminate].
      intros _. exists (take 20 rest). rewrite length_take.
      repeat split; auto; [lia |]. right.
      rewrite <- (take_drop 20 rest) at 1. now rewrite Er.
  - intros (ds & Hl & Hd & [-> | ->]); simpl Ascii.eqb; cbv iota;
      rewrite run_rep_dig.
    + rewrite take_ge, drop_ge by lia.
      rewrite Hl, Hd. reflexivity.
    + rewrite length_app, take_app_length', drop_app_length'
        by (symmetry; assumption).
      rewrite Hl, Hd. reflexivity.
Qed.

(** ** The tokens of a ranged name *)

Lemma split_on_first (sep : ascii) (s : string) :
  split_on sep s !! 0%nat = Some (first_piece sep s).
Proof.
  induction s as [| c s IH]; simpl; [reflexivity |].
  destruct (Ascii.eqb c sep); [reflexivity |].
  destruct (split_on sep s) as [| piece rest]; [discriminate |].
  simpl in *. congruence.
Qed.

Lemma text_app (l1 l2 : list ascii) : text (l1 ++ l2) = text l1 ++ text l2.
Proof.
  unfold text. induction l1 as [| c l1 IH]; [reflexivity |].
  simpl. rewrite IH. reflexivity.
Qed.

Lemma text_chars (s : string) : text (chars s) = s.
Proof. apply string_of_list_ascii_of_string. Qed.

Lemma first_piece_stop (sep : ascii) (l : list ascii) (rest : string) :
  Forall (fun c => Ascii.eqb c sep = false) l ->
  first_piece sep (text l ++ String sep rest) = text l.
Proof.
  unfold text. induction 1 as [| c l Hc _ IH].
  - simpl. now rewrite Ascii.eqb_refl.
  - change (string_of_list_ascii (c :: l) ++ String sep rest)
      with (String c (string_of_list_ascii l ++ String sep rest)).
    cbn [first_piece]. rewrite Hc, IH. reflexivity.
Qed.

Lemma first_piece_pass (sep c : ascii) (l : list ascii) (rest : string) :
  Forall (fun c => Ascii.eqb c sep = false) l ->
  Ascii.eqb c sep = false ->
  first_piece sep (text l ++ String c rest) =
    text l ++ String c (first_piece sep rest).
Proof.
  unfold text. intros Hl Hc. induction Hl as [| x l Hx _ IH].
  - simpl. now rewrite Hc.
  - change (string_of_list_ascii (x :: l) ++ String c rest)
      with (String x (string_of_list_ascii l ++ String c rest)).
    cbn [first_piece]. rewrite Hx, IH. reflexivity.
Qed.

Lemma split_on_second (sep : ascii) (l : list ascii) (rest : string) :
  Forall (fun c => Ascii.eqb c sep = false) l ->
  split_on sep (text l ++ String sep rest) !! 1%nat =
    Some (first_piece sep rest).
Proof.
  unfold text. induction 1 as [| c l Hc _ IH].
  - simpl. rewrite Ascii.eqb_refl. simpl. apply split_on_first.
  - change (string_of_list_ascii (c :: l) ++ String sep rest)
      with (String c (string_of_list_ascii l ++ String sep rest)).
    cbn [split_on]. rewrite Hc.
    destruct (split_on sep (string_of_list_ascii l ++ String sep rest))
      as [| piece tl]; [discriminate | exact IH].
Qed.

Lemma digits_avoid (sep : ascii) (l : list ascii) :
  is_digit sep = false ->
  forallb is_digit l = true ->
  Forall (fun c => Ascii.eqb c sep = false) l.
Proof.
  intros Hsep Hl. apply Forall_forall. intros c Hc.
  rewrite forallb_forall in Hl.
  destruct (Ascii.eqb_spec c sep) as [-> |]; [| reflexivity].
  rewrite (Hl sep) in Hsep; [discriminate |]. now apply list_elem_of_In.
Qed.

(** For a name the pattern accepts, the two tokens taken by [split] are
    the two groups of eight digits. *)
Lemma range_tokens (name : string) :
  matches filename_re name = true ->
  split_on "-" name !! 0%nat = Some (text (take 8 (chars name))) /\
  exists piece,
    split_on "-" name !! 1%nat = Some piece /\
    split_on "." piece !! 0%nat = Some (text (take 8 (drop 9 (chars name)))).
Proof.
  intros H. apply matches_filename_re in H
    as (d1 & d2 & tail & Hn & L1 & L2 & D1 & D2).
  assert (Hname : name =
            text d1 ++ String "-" (text d2 ++ String "." ("csv" ++ text tail))).
  { rewrite <- (text_chars name), Hn, text_app. f_equal.
    change (text ("-"%char :: (d2 ++ chars ".csv" ++ tail)%list))
      with (String "-" (text (d2 ++ chars ".csv" ++ tail)%list)).
    f_equal. rewrite text_app. f_equal. }
  rewrite Hn.
  rewrite take_app_length' by (symmetry; exact L1).
  replace (drop 9 (d1 ++ "-"%char :: d2 ++ chars ".csv" ++ tail)%list)
    with (d2 ++ chars ".csv" ++ tail)%list.
  2:{ change 9%nat with (8 + 1)%nat. rewrite <- drop_drop.
      rewrite drop_app_length' by (symmetry; exact L1). reflexivity. }
  rewrite take_app_length' by (symmetry; exact L2).
  pose proof (digits_avoid "-" d1 eq_refl D1) as A1.
  pose proof (digits_avoid "-" d2 eq_refl D2) as A2.
  pose proof (digits_avoid "." d2 eq_refl D2) as A3.
  split.
  - rewrite split_on_first, Hname. now rewrite first_piece_stop.
  - eexists. split.
    + rewrite Hname. apply split_on_second. exact A1.
    + rewrite split_on_first.
      rewrite first_piece_pass by (auto; reflexivity).
      now rewrite first_piece_stop.
Qed.

(** ** [convert_file] *)

(** A name that is a date range as a whole is accepted by the pattern:
    only the converse fails. *)
Lemma whole_name_matches (name : string) :
  spec_whole_name name = true -> matches filename_re name = true.
Proof.
  unfold spec_whole_name. intros H.
  repeat (apply andb_true_iff in H as [H ?]).
  apply Nat.eqb_eq in H.
  repeat match goal with
         | B : bool_decide _ = true |- _ => apply bool_decide_eq_true_1 in B
         end.
  apply matches_filename_re.
  exists (take 8 (chars name)), (take 8 (drop 9 (chars name))), [].
  rewrite !length_take, length_drop.
  repeat split; auto; try lia.
  rewrite <- (take_drop 8 (chars name)) at 1. f_equal.
  erewrite drop_S by eassumption. f_equal.
  rewrite <- (take_drop 8 (drop 9 (chars name))) at 1. f_equal.
  rewrite drop_drop, app_nil_r. assumption.
Qed.

(** C7. The name [20240101-20240131.csv.csv] is not of the form eight
    digits, hyphen, eight digits, [.csv], yet [re.match] accepts it by its
    prefix and [convert_file] treats the file as ranged: the row of
    15.02.24 is left out of the upload and the source file stays. *)
Theorem prefix_match_activates_range :
  spec_whole_name "20240101-20240131.csv.csv" = false /\
  matches filename_re "20240101-20240131.csv.csv" = true /\
  convert_file demo_cfg "/work/20240101-20240131.csv.csv"
    (demo_world "/work/20240101-20240131.csv.csv"
       (demo_records "DE12345678901234567890")) =
    (Ok tt,
     mk_world
       {[ "/work/20240101-20240131.csv.csv" :=
            export (demo_records "DE12345678901234567890") ]}
       (fun _ => true)
       {[ "ynab/20240201-Girokonto-DE12345678901234567890_2024-01-01 00:00:00_2024-01-31 00:00:00.csv" :=
            mk_file []
              [Header;
               Data (mk_ynab_row "2024-01-02" (Some "Arbeitgeber GmbH")
                       (Some "Gehalt") "1234.56")] ]}
       None
       (log (snd (convert_file demo_cfg "/work/20240101-20240131.csv.csv"
                    (demo_world "/work/20240101-20240131.csv.csv"
                       (demo_records "DE12345678901234567890")))))).
Proof. repeat split; vm_compute; reflexivity. Qed.

Lemma unlink_removes path w :
  files (snd (unlink path w)) !! path = None.
Proof.
  unfold unlink. destruct (files w !! path) eqn:E; simpl.
  - apply lookup_delete_eq.
  - exact E.
Qed.

(** C8. When the conversion of an unranged file raises, [convert_file]
    logs the error and still unlinks the source: afterwards the source
    file is gone, and [convert_file] has returned normally if the file
    was there to unlink. *)
Theorem source_deleted_after_failed_conversion cfg file w e w1 :
  matches filename_re (basename file) = false ->
  convert_data cfg file None None w = (Raise e, w1) ->
  files (snd (convert_file cfg file w)) !! file = None /\
  (is_Some (files w1 !! file) -> fst (convert_file cfg file w) = Ok tt).
Proof.
  intros Hm Hc. unfold convert_file. rewrite Hm.
  unfold bind, try_except. rewrite Hc. unfold logmsg.
  split.
  - match goal with
    | |- context [unlink file ?w2] =>
        pose proof (unlink_removes file w2) as H;
        destruct (unlink file w2) as [[[] | e2] w3]; exact H
    end.
  - intros [f Hf]. unfold unlink. simpl files. now rewrite Hf.
Qed.

Lemma source_deleted_after_failed_conversion_witness :
  files (snd (convert_file demo_cfg "/work/export.csv"
                (demo_world "/work/export.csv" (demo_records "DE1234"))))
    !! "/work/export.csv" = None /\
  (is_Some
     (files (snd (convert_data demo_cfg "/work/export.csv" None None
                    (demo_world "/work/export.csv" (demo_records "DE1234"))))
        !! "/work/export.csv") ->
   fst (convert_file demo_cfg "/work/export.csv"
          (demo_world "/work/export.csv" (demo_records "DE1234"))) = Ok tt).
Proof.
  apply (source_deleted_after_failed_conversion demo_cfg "/work/export.csv"
           (demo_world "/work/export.csv" (demo_records "DE1234"))
           (ValueError "Invalid IBAN: DE1234")).
  - reflexivity.
  - vm_compute. reflexivity.
Defined.

(** Inside the ranged branch every exception of [convert_data] is caught:
    once both tokens are dates, [convert_file] returns normally. *)
Lemma ranged_conversion_returns cfg file w s e :
  matches filename_re (basename file) = true ->
  strptime_Ymd (text (take 8 (chars (basename file)))) = Ok s ->
  strptime_Ymd (text (take 8 (drop 9 (chars (basename file))))) = Ok e ->
  fst (convert_file cfg file w) = Ok tt.
Proof.
  intros Hm Hs He.
  destruct (range_tokens _ Hm) as (H0 & piece & H1 & H2).
  unfold convert_file. rewrite Hm. unfold_m. rewrite H0, H1, H2, Hs, He.
  destruct (convert_data cfg file (Some s) (Some e) w) as [[[] | e1] w1];
    reflexivity.
Qed.

(** C9. When the name matches the pattern but one of its two groups of
    eight digits is no calendar date, [strptime] raises outside every
    [try]: [convert_file] raises the [ValueError], and the loop of [main]
    stops at that file without reaching the files after it. *)
Theorem bad_range_token_escapes cfg file rest w e :
  matches filename_re (basename file) = true ->
  strptime_Ymd (text (take 8 (chars (basename file)))) = Raise e \/
  (exists d, strptime_Ymd (text (take 8 (chars (basename file)))) = Ok d) /\
  strptime_Ymd (text (take 8 (drop 9 (chars (basename file))))) = Raise e ->
  convert_file cfg file w = (Raise e, w) /\
  convert_all cfg (file :: rest) w =
    (Raise e, add_log (mk_log INFO "Converting file: %s" [file]) w).
Proof.
  intros Hm Hbad.
  destruct (range_tokens _ Hm) as (H0 & piece & H1 & H2).
  assert (Hcf : forall w0, convert_file cfg file w0 = (Raise e, w0)).
  { intros w0. unfold convert_file. rewrite Hm. unfold_m.
    rewrite H0, H1, H2.
    destruct Hbad as [Hs | [[d Hd] He]].
    - now rewrite Hs.
    - now rewrite Hd, He. }
  split; [apply Hcf |].
  cbn [convert_all]. unfold bind, logmsg. now rewrite Hcf.
Qed.

Lemma bad_range_token_escapes_witness :
  convert_file demo_cfg "/work/20241301-20240131.csv"
    (demo_world "/work/20241301-20240131.csv"
       (demo_records "DE12345678901234567890")) =
    (Raise (ValueError "unconverted data remains"),
     demo_world "/work/20241301-20240131.csv"
       (demo_records "DE12345678901234567890")) /\
  convert_all demo_cfg ["/work/20241301-20240131.csv"; "/work/export.csv"]
    (demo_world "/work/20241301-20240131.csv"
       (demo_records "DE12345678901234567890")) =
    (Raise (ValueError "unconverted data remains"),
     add_log (mk_log INFO "Converting file: %s" ["/work/20241301-20240131.csv"])
       (demo_world "/work/20241301-20240131.csv"
          (demo_records "DE12345678901234567890"))).
Proof.
  apply (bad_range_token_escapes demo_cfg "/work/20241301-20240131.csv"
           ["/work/export.csv"]
           (demo_world "/work/20241301-20240131.csv"
              (demo_records "DE12345678901234567890"))
           (ValueError "unconverted data remains"));
    [reflexivity | left; reflexivity].
Defined.

(** C10. On a file without rows the loop never binds [ynab_file_name];
    reading it for the upload raises [UnboundLocalError], the handler
    reads it again for its log line and raises the same error, and
    [convert_data] ends with that exception, the world unchanged. *)
Theorem empty_file_raises cfg file sd ed w f :
  files w !! file = Some f ->
  dict_rows (csv_records cfg f) = [] ->
  convert_data cfg file sd ed w =
    (Raise (UnboundLocalError "ynab_file_name"), w).
Proof.
  intros Hf Hrows. unfold convert_data, open_read.
  unfold bind at 1. rewrite Hf. rewrite Hrows. reflexivity.
Qed.

Lemma empty_file_raises_witness :
  convert_data demo_cfg "/work/export.csv" None None
    (demo_world "/work/export.csv" []) =
    (Raise (UnboundLocalError "ynab_file_name"),
     demo_world "/work/export.csv" []).
Proof.
  apply (empty_file_raises demo_cfg "/work/export.csv" None None
           (demo_world "/work/export.csv" []) (export []));
    reflexivity.
Defined.

(** * Further properties *)

Lemma files_set_files f w : files (set_files f w) = f.
Proof. reflexivity. Qed.
Lemma files_set_remote r w : files (set_remote r w) = files w.
Proof. reflexivity. Qed.
Lemma files_add_log l w : files (add_log l w) = files w.
Proof. reflexivity. Qed.
Lemma remote_set_files f w : remote (set_files f w) = remote w.
Proof. reflexivity. Qed.
Lemma remote_set_remote r w : remote (set_remote r w) = r.
Proof. reflexivity. Qed.
Lemma remote_add_log l w : remote (add_log l w) = remote w.
Proof. reflexivity. Qed.
Lemma writable_set_files f w : writable (set_files f w) = writable w.
Proof. reflexivity. Qed.
Lemma writable_set_remote r w : writable (set_remote r w) = writable w.
Proof. reflexivity. Qed.
Lemma writable_add_log l w : writable (add_log l w) = writable w.
Proof. reflexivity. Qed.
Lemma fault_set_files f w : webdav_fault (set_files f w) = webdav_fault w.
Proof. reflexivity. Qed.
Lemma fault_set_remote r w : webdav_fault (set_remote r w) = webdav_fault w.
Proof. reflexivity. Qed.
Lemma fault_add_log l w : webdav_fault (add_log l w) = webdav_fault w.
Proof. reflexivity. Qed.
Lemma parent_set_files f w : remote_parent (set_files f w) = remote_parent w.
Proof. reflexivity. Qed.
Lemma parent_set_remote r w : remote_parent (set_remote r w) = remote_parent w.
Proof. reflexivity. Qed.
Lemma parent_add_log l w : remote_parent (add_log l w) = remote_parent w.
Proof. reflexivity. Qed.

Create Rewrite HintDb world.
#[local] Hint Rewrite files_set_files files_set_remote files_add_log
  remote_set_files remote_set_remote remote_add_log
  writable_set_files writable_set_remote writable_add_log
  fault_set_files fault_set_remote fault_add_log
  parent_set_files parent_set_remote parent_add_log : world.

Ltac wsimpl := cbv beta iota; autorewrite with world; cbv beta iota.

(** ** The loop of [convert_data] as a function of the rows *)

Lemma set_files_same (w : world) : set_files (files w) w = w.
Proof. now destruct w. Qed.

Lemma transaction_block_result sd ed fn row w :
  transaction_block sd ed fn row w =
    match row_result sd ed row with
    | Raise e => (Raise e, w)
    | Ok None => (Ok tt, w)
    | Ok (Some r) =>
        (name <- local_var "ynab_file_name" fn ;; append_row name r) w
    end.
Proof.
  unfold transaction_block, row_result. unfold bind at 1.
  destruct (get row Buchungsdatum) as [s |]; [| reflexivity].
  destruct (strptime_dmy s) as [date | e]; [| reflexivity].
  destruct (outside date (both sd ed)); [reflexivity |].
  unfold bind at 1.
  destruct (get row Betrag) as [a |]; [| reflexivity].
  cbn [ret]. unfold bind at 1.
  destruct (bool_decide (get row Zahlungspflichtige = Some "DKB AG")).
  - destruct (get row Verwendungszweck) as [memo |]; [| reflexivity].
    cbn [ret]. destruct (contains _ memo); reflexivity.
  - reflexivity.
Qed.

Lemma loop_body_past_5 cfg sd ed fn ln row w :
  (5 < ln)%nat ->
  loop_body cfg sd ed fn (ln, row) w =
    match row_result sd ed row with
    | Raise e => (Raise e, w)
    | Ok None => (Ok fn, w)
    | Ok (Some r) =>
        match fn with
        | Some name =>
            if writable w name
            then (Ok fn,
                  set_files (<[name := with_row (files w !! name) r]> (files w)) w)
            else (Raise (OSError name), w)
        | None => (Raise (UnboundLocalError "ynab_file_name"), w)
        end
    end.
Proof.
  intros Hln. destruct (ltb_5_not_1 ln Hln) as [E1 E5].
  unfold loop_body. rewrite E1, E5.
  unfold bind at 1. cbn [ret]. unfold bind at 1.
  rewrite transaction_block_result.
  destruct (row_result sd ed row) as [[r |] | e]; try reflexivity.
  destruct fn as [name |]; [| reflexivity].
  unfold bind, local_var, ret, append_row.
  destruct (writable w name); reflexivity.
Qed.

Lemma loop_body_preamble cfg sd ed fn ln row w :
  ln <> 1%nat -> (ln <= 5)%nat ->
  loop_body cfg sd ed fn (ln, row) w = (Ok fn, w).
Proof.
  intros H1 H5. unfold loop_body.
  apply Nat.eqb_neq in H1. rewrite H1.
  assert (E : Nat.ltb 5 ln = false) by (apply Nat.ltb_ge; lia).
  rewrite E. reflexivity.
Qed.

Lemma omap_kept_cons sd ed r rows :
  omap (kept_row sd ed) (r :: rows) =
    match kept_row sd ed r with
    | Some y => y :: omap (kept_row sd ed) rows
    | None => omap (kept_row sd ed) rows
    end.
Proof. reflexivity. Qed.

(** The rows after the header, none of which raises, add to the output
    file the data rows they give, in their order. *)
Lemma for_rows_clean cfg sd ed rows name w f0 :
  forallb (clean_row sd ed) rows = true ->
  files w !! name = Some f0 ->
  writable w name = true ->
  for_rows cfg sd ed rows (Some name) w =
    (Ok (Some name),
     set_files
       (<[name := mk_file (foreign f0)
                    (written f0 ++ map Data (omap (kept_row sd ed) rows))]>
          (files w)) w).
Proof.
  revert w f0. induction rows as [| [ln row] rows IH]; intros w f0 Hc Hf Hw.
  - cbn. rewrite app_nil_r.
    replace (mk_file (foreign f0) (written f0)) with f0 by now destruct f0.
    rewrite insert_id by exact Hf. now rewrite set_files_same.
  - cbn [forallb] in Hc. apply andb_true_iff in Hc as [Hr Hc].
    unfold clean_row in Hr. cbn [fst snd] in Hr.
    apply andb_true_iff in Hr as [H1 Hr].
    apply negb_true_iff, Nat.eqb_neq in H1.
    rewrite omap_kept_cons. unfold kept_row at 1. cbn [fst snd].
    cbn [for_rows]. unfold bind at 1.
    destruct (Nat.ltb 5 ln) eqn:E5.
    + apply Nat.ltb_lt in E5. rewrite (loop_body_past_5 _ _ _ _ _ _ _ E5).
      destruct (row_result sd ed row) as [[r |] | e]; [| | discriminate].
      * rewrite Hw.
        rewrite (IH _ (with_row (Some f0) r));
          [| exact Hc | cbn; rewrite Hf; apply lookup_insert_eq | exact Hw].
        rewrite Hf. unfold set_files, with_row; cbn.
        rewrite insert_insert_eq, <- app_assoc. reflexivity.
      * now apply IH.
    + apply Nat.ltb_ge in E5.
      rewrite loop_body_preamble by assumption.
      now apply IH.
Qed.

Lemma header_accepted cfg sd ed fn hrow account_name iban w :
  get hrow Buchungsdatum = Some account_name ->
  get hrow Wertstellung = Some iban ->
  matches iban_re iban = true ->
  writable w (output_name cfg account_name iban sd ed) = true ->
  loop_body cfg sd ed fn (1%nat, hrow) w =
    (Ok (Some (output_name cfg account_name iban sd ed)),
     set_files
       (<[output_name cfg account_name iban sd ed := mk_file [] [Header]]>
          (files w))
       (add_log (mk_log INFO "Writing local YNAB CSV file: %s"
                   [output_name cfg account_name iban sd ed])
          (add_log (mk_log INFO "IBAN: %s" [iban])
             (add_log (mk_log INFO "Account name: %s" [account_name]) w)))).
Proof.
  intros Ha Hi Hm Hw.
  unfold loop_body, header_block.
  simpl Nat.eqb. simpl Nat.ltb. cbv iota.
  rewrite Ha, Hi, Hm. simpl str_opt. simpl negb. cbv iota.
  unfold_m. simpl writable. rewrite Hw. reflexivity.
Qed.


(** X1. A row past line 5 whose booking date lies before the start or
    after the end of the active range is skipped without any effect,
    whatever its other fields hold. *)
Theorem out_of_range_row_is_skipped cfg s e fn ln row w t date :
  (5 < ln)%nat ->
  get row Buchungsdatum = Some t ->
  strptime_dmy t = Ok date ->
  dt_lt date s = true \/ dt_lt e date = true ->
  loop_body cfg (Some s) (Some e) fn (ln, row) w = (Ok fn, w).
Proof.
  intros Hln Ht Hd Hout.
  rewrite loop_body_past_5 by exact Hln.
  unfold row_result. rewrite Ht, Hd. cbn [both outside].
  replace (dt_lt date s || dt_lt e date) with true; [reflexivity |].
  symmetry. apply orb_true_iff. exact Hout.
Qed.

Lemma out_of_range_row_is_skipped_witness :
  loop_body demo_cfg (Some (mkdt 2024 1 1 0 0 0)) (Some (mkdt 2024 1 31 0 0 0))
    None (7%nat, ["15.02.24"]) (demo_world "/work/export.csv" []) =
    (Ok None, demo_world "/work/export.csv" []).
Proof.
  apply (out_of_range_row_is_skipped demo_cfg (mkdt 2024 1 1 0 0 0)
           (mkdt 2024 1 31 0 0 0) None 7 ["15.02.24"]
           (demo_world "/work/export.csv" []) "15.02.24"
           (mkdt 2024 2 15 0 0 0));
    [lia | reflexivity | reflexivity | right; reflexivity].
Defined.

Lemma lex_lt_irrefl (l : list N) : lex_lt l l = false.
Proof.
  induction l as [| x l IH]; [reflexivity |].
  cbn [lex_lt]. rewrite N.ltb_irrefl, N.eqb_refl, IH. reflexivity.
Qed.

Lemma dt_lt_irrefl (t : datetime) : dt_lt t t = false.
Proof. apply lex_lt_irrefl. Qed.

(** X2. The bounds of the range are inclusive: a row dated on the start
    date or on the end date is written like any row inside the range. *)
Theorem range_bounds_are_inclusive cfg s e name ln row w t date a :
  (5 < ln)%nat ->
  get row Buchungsdatum = Some t ->
  strptime_dmy t = Ok date ->
  date = s \/ date = e ->
  dt_lt e s = false ->
  get row Betrag = Some a ->
  balance_footer row = false ->
  writable w name = true ->
  loop_body cfg (Some s) (Some e) (Some name) (ln, row) w =
    (Ok (Some name),
     set_files
       (<[name := with_row (files w !! name)
            (mk_ynab_row (strftime_iso date)
               (if bool_decide (get row Umsatztyp = Some "Eingang")
                then get row Zahlungspflichtige
                else get row Zahlungsempfaenger)
               (get row Verwendungszweck) (convert_amount a))]> (files w)) w).
Proof.
  intros Hln Ht Hd Hb Hse Ha Hf Hw.
  eapply transaction_written; try eassumption.
  cbn [both outside].
  destruct Hb as [-> | ->]; rewrite dt_lt_irrefl, ?Hse; reflexivity.
Qed.

Lemma range_bounds_are_inclusive_witness :
  loop_body demo_cfg (Some (mkdt 2024 1 2 0 0 0)) (Some (mkdt 2024 1 31 0 0 0))
    (Some "/work/out.csv") (6%nat, salary_row)
    (demo_world "/work/export.csv" []) =
    (Ok (Some "/work/out.csv"),
     set_files
       (<["/work/out.csv" :=
            with_row (files (demo_world "/work/export.csv" []) !! "/work/out.csv")
              (mk_ynab_row (strftime_iso (mkdt 2024 1 2 0 0 0))
                 (if bool_decide (get salary_row Umsatztyp = Some "Eingang")
                  then get salary_row Zahlungspflichtige
                  else get salary_row Zahlungsempfaenger)
                 (get salary_row Verwendungszweck)
                 (convert_amount "1.234,56"))]>
          (files (demo_world "/work/export.csv" [])))
       (demo_world "/work/export.csv" [])).
Proof.
  apply (range_bounds_are_inclusive demo_cfg (mkdt 2024 1 2 0 0 0)
           (mkdt 2024 1 31 0 0 0) "/work/out.csv" 6 salary_row
           (demo_world "/work/export.csv" []) "02.01.24"
           (mkdt 2024 1 2 0 0 0) "1.234,56");
    [lia | reflexivity | reflexivity | left; reflexivity | reflexivity ..].
Defined.

(** X3. After the header, rows that raise nothing add to the output file
    exactly the data rows they give (none for lines 2 to 5, for rows
    outside the range and for the balance footer), in the order of the
    input, and change nothing else. *)
Theorem loop_appends_kept_rows cfg sd ed rows name w f0 :
  forallb (clean_row sd ed) rows = true ->
  files w !! name = Some f0 ->
  writable w name = true ->
  for_rows cfg sd ed rows (Some name) w =
    (Ok (Some name),
     set_files
       (<[name := mk_file (foreign f0)
                    (written f0 ++ map Data (omap (kept_row sd ed) rows))]>
          (files w)) w).
Proof. apply for_rows_clean. Qed.

Lemma loop_appends_kept_rows_witness :
  for_rows demo_cfg None None demo_rows (Some "/work/out.csv")
    (demo_world "/work/out.csv" []) =
    (Ok (Some "/work/out.csv"),
     set_files
       (<["/work/out.csv" :=
            mk_file (foreign (export []))
              (written (export []) ++
               map Data (omap (kept_row None None) demo_rows))]>
          (files (demo_world "/work/out.csv" [])))
       (demo_world "/work/out.csv" [])).
Proof.
  apply (loop_appends_kept_rows demo_cfg None None demo_rows "/work/out.csv"
           (demo_world "/work/out.csv" []) (export []));
    reflexivity.
Defined.



Example kept_rows_of_the_sample :
  omap (kept_row None None) demo_rows =
    [mk_ynab_row "2024-01-02" (Some "Arbeitgeber GmbH") (Some "Gehalt")
       "1234.56";
     mk_ynab_row "2024-02-15" (Some "Buchladen") (Some "Rechnung 17")
       "-12.00"].
Proof. reflexivity. Qed.



(** ** [convert_file] on a convertible file *)








Example kept_rows_of_the_ranged_sample :
  omap (kept_row (Some (mkdt 2024 1 1 0 0 0)) (Some (mkdt 2024 1 31 0 0 0)))
    demo_rows =
    [mk_ynab_row "2024-01-02" (Some "Arbeitgeber GmbH") (Some "Gehalt")
       "1234.56"].
Proof. reflexivity. Qed.

(** ** A file without a header row *)

Lemma for_rows_unbound cfg sd ed rows w :
  forallb (fun r => negb (Nat.eqb (fst r) 1)) rows = true ->
  for_rows cfg sd ed rows None w = (Ok None, w) \/
  exists e, for_rows cfg sd ed rows None w = (Raise e, w).
Proof.
  induction rows as [| [ln row] rows IH]; intros H.
  - left. reflexivity.
  - cbn [forallb fst] in H. apply andb_true_iff in H as [H1 H].
    apply negb_true_iff, Nat.eqb_neq in H1.
    assert (Hstep : loop_body cfg sd ed None (ln, row) w = (Ok None, w) \/
                    exists e, loop_body cfg sd ed None (ln, row) w = (Raise e, w)).
    { destruct (Nat.ltb 5 ln) eqn:E5.
      - apply Nat.ltb_lt in E5. rewrite (loop_body_past_5 _ _ _ _ _ _ _ E5).
        destruct (row_result sd ed row) as [[r |] | e]; eauto.
      - apply Nat.ltb_ge in E5. rewrite loop_body_preamble by assumption. auto. }
    cbn [for_rows]. unfold bind.
    destruct Hstep as [Hs | [e Hs]].
    + destruct (IH H) as [Hr | [e Hr]]; [left | right; exists e];
        rewrite Hs; exact Hr.
    + right. exists e. now rewrite Hs.
Qed.

(** X9. A file in which no row is read at line 1 (an empty file, a file
    that begins with a blank line or with a record that spans several
    lines) is never converted: [convert_data] raises and leaves the local
    files, the remote store and the log as they were. *)
Theorem headerless_file_is_not_converted cfg file sd ed w f :
  files w !! file = Some f ->
  forallb (fun r => negb (Nat.eqb (fst r) 1))
    (dict_rows (csv_records cfg f)) = true ->
  exists e, convert_data cfg file sd ed w = (Raise e, w).
Proof.
  intros Hf Hrows.
  unfold convert_data, open_read. unfold bind at 1. rewrite Hf.
  unfold bind at 1.
  destruct (for_rows_unbound cfg sd ed _ w Hrows) as [H | [e H]]; rewrite H.
  - eexists. reflexivity.
  - eexists. reflexivity.
Qed.

Lemma headerless_file_is_not_converted_witness :
  exists e,
    convert_data demo_cfg "/work/export.csv" None None
      (demo_world "/work/export.csv" blank_first_records) =
      (Raise e, demo_world "/work/export.csv" blank_first_records).
Proof.
  apply (headerless_file_is_not_converted demo_cfg "/work/export.csv" None None
           (demo_world "/work/export.csv" blank_first_records)
           (export blank_first_records));
    reflexivity.
Defined.

(** ** What [upload_webdav_file] and [delete_webdav_file] do *)

(** X10. [upload_webdav_file] never changes a local file and raises only
    what the client raised that is no [WebDavException].  When the client
    works it returns normally: a local file whose remote folder exists is
    stored in that folder under the last component of its path, and a
    missing local file or a missing remote folder only adds an error to the
    log. *)
Theorem upload_webdav_file_behaviour (local_file remote_dir : string)
    (w : world) :
  files (snd (upload_webdav_file local_file remote_dir w)) = files w /\
  (forall e,
     fst (upload_webdav_file local_file remote_dir w) = Raise e ->
     is_webdav e = false /\ webdav_fault w = Some e) /\
  (webdav_fault w = None ->
   forall f, files w !! local_file = Some f ->
     remote_parent w (remote_dir ++ "/" ++ basename local_file) = true ->
     fst (upload_webdav_file local_file remote_dir w) = Ok tt /\
     remote (snd (upload_webdav_file local_file remote_dir w)) =
       <[remote_dir ++ "/" ++ basename local_file := f]> (remote w)) /\
  (webdav_fault w = None ->
   files w !! local_file = None \/
   remote_parent w (remote_dir ++ "/" ++ basename local_file) = false ->
   exists l,
     upload_webdav_file local_file remote_dir w = (Ok tt, add_log l w) /\
     lvl l = ERROR).
Proof.
  unfold upload_webdav_file, upload_sync, webdav_request. unfold_m.
  destruct (webdav_fault w) as [e |] eqn:Hfault.
  - destruct (is_webdav e) eqn:He; cbn [fst snd]; wsimpl;
      (split; [reflexivity |]);
      (split; [| split; discriminate]);
      intros e' H; inversion H; subst; auto.
  - wsimpl. rewrite Hfault. wsimpl.
    destruct (files w !! local_file) as [f |] eqn:Hl;
      [destruct (remote_parent w _) eqn:Hp |];
      cbn [fst snd is_webdav]; wsimpl.
    + split; [reflexivity |]. split; [discriminate |].
      split.
      * intros _ f' E _. inversion E; subst. auto.
      * intros _ [E | E]; discriminate.
    + split; [reflexivity |]. split; [discriminate |].
      split; [intros _ f' _ E; discriminate |].
      intros _ _. eexists. split; reflexivity.
    + split; [reflexivity |]. split; [discriminate |].
      split; [intros _ f' E; discriminate |].
      intros _ _. eexists. split; reflexivity.
Qed.

(** X11. [delete_webdav_file] never changes a local file and raises only
    what the client raised that is no [WebDavException].  When the client
    works it returns normally and the entry is absent afterwards; an entry
    that was absent before only adds an error to the log. *)
Theorem delete_webdav_file_behaviour (remote_file : string) (w : world) :
  files (snd (delete_webdav_file remote_file w)) = files w /\
  (forall e,
     fst (delete_webdav_file remote_file w) = Raise e ->
     is_webdav e = false /\ webdav_fault w = Some e) /\
  (webdav_fault w = None ->
     fst (delete_webdav_file remote_file w) = Ok tt /\
     remote (snd (delete_webdav_file remote_file w)) !! remote_file = None) /\
  (webdav_fault w = None ->
   remote w !! remote_file = None ->
   exists l,
     delete_webdav_file remote_file w = (Ok tt, add_log l w) /\
     lvl l = ERROR).
Proof.
  unfold delete_webdav_file, clean, webdav_request. unfold_m.
  destruct (webdav_fault w) as [e |] eqn:Hfault.
  - destruct (is_webdav e) eqn:He; cbn [fst snd]; wsimpl;
      (split; [reflexivity |]);
      (split; [| split; discriminate]);
      intros e' H; inversion H; subst; auto.
  - wsimpl.
    destruct (remote w !! remote_file) as [f |] eqn:Hr; cbn [fst snd is_webdav];
      wsimpl.
    + split; [reflexivity |]. split; [discriminate |].
      split; [| discriminate].
      intros _. split; [reflexivity | apply lookup_delete_eq].
    + split; [reflexivity |]. split; [discriminate |].
      split.
      * intros _. split; [reflexivity | exact Hr].
      * intros _ _. eexists. split; reflexivity.
Qed.

(** ** [download_webdav_files] *)

Lemma append_inj_r (p a b : string) : p ++ a = p ++ b -> a = b.
Proof.
  induction p as [| c p IH]; intros H; [exact H |].
  apply IH. now inversion H.
Qed.

Lemma entry_path_inj (dir a b : string) :
  dir ++ "/" ++ a = dir ++ "/" ++ b -> a = b.
Proof. intros H. apply append_inj_r in H. now apply append_inj_r in H. Qed.

(** One iteration when the client works. *)
Lemma download_one_cases remote_dir local_dir m w :
  webdav_fault w = None ->
  download_one remote_dir local_dir m w =
    match remote w !! (remote_dir ++ "/" ++ m) with
    | None =>
        (Ok tt,
         add_log
           (mk_log ERROR
              "Could not download file '%s' from WebDAV directory '%s': %s"
              [m; remote_dir; "RemoteResourceNotFound"]) w)
    | Some f =>
        if writable w (local_dir ++ "/" ++ m) then
          (Ok tt,
           add_log
             (mk_log INFO "Successfully deleted file '%s' from WebDAV"
                [remote_dir ++ "/" ++ m])
             (set_remote (delete (remote_dir ++ "/" ++ m) (remote w))
                (add_log
                   (mk_log INFO
                      "Successfully downloaded file '%s' from WebDAV directory '%s'"
                      [m; remote_dir])
                   (set_files (<[local_dir ++ "/" ++ m := f]> (files w)) w))))
        else (Raise (OSError (local_dir ++ "/" ++ m)), w)
    end.
Proof.
  intros Hfault.
  unfold download_one, download_sync, delete_webdav_file, clean, webdav_request.
  unfold_m. rewrite Hfault. wsimpl.
  destruct (remote w !! (remote_dir ++ "/" ++ m)) as [f |] eqn:Hr;
    [| reflexivity].
  destruct (writable w (local_dir ++ "/" ++ m)); [| reflexivity].
  wsimpl. rewrite Hfault. wsimpl. rewrite Hr. reflexivity.
Qed.

(** The entries of a name that is not fetched stay as they are, whatever
    the client does. *)
Lemma download_one_frame remote_dir local_dir m n w :
  m <> n ->
  files (snd (download_one remote_dir local_dir m w)) !! (local_dir ++ "/" ++ n)
    = files w !! (local_dir ++ "/" ++ n) /\
  remote (snd (download_one remote_dir local_dir m w)) !! (remote_dir ++ "/" ++ n)
    = remote w !! (remote_dir ++ "/" ++ n).
Proof.
  intros Hne.
  assert (Hl : local_dir ++ "/" ++ m <> local_dir ++ "/" ++ n)
    by (intros E; apply Hne; eapply entry_path_inj; exact E).
  assert (Hr : remote_dir ++ "/" ++ m <> remote_dir ++ "/" ++ n)
    by (intros E; apply Hne; eapply entry_path_inj; exact E).
  unfold download_one, download_sync, delete_webdav_file, clean, webdav_request.
  unfold_m.
  destruct (webdav_fault w) as [e |] eqn:Hfault.
  - destruct (is_webdav e); auto.
  - wsimpl.
    destruct (remote w !! (remote_dir ++ "/" ++ m)) as [f |] eqn:Hm; wsimpl;
      [| auto].
    destruct (writable w (local_dir ++ "/" ++ m)); wsimpl; [| auto].
    rewrite Hfault. wsimpl. rewrite Hm. cbn [fst snd is_webdav]. wsimpl.
    rewrite lookup_insert_ne, lookup_delete_ne by assumption. auto.
Qed.

Lemma download_each_frame remote_dir local_dir names n w :
  ~ In n names ->
  files (snd (download_each remote_dir local_dir names w))
    !! (local_dir ++ "/" ++ n) = files w !! (local_dir ++ "/" ++ n) /\
  remote (snd (download_each remote_dir local_dir names w))
    !! (remote_dir ++ "/" ++ n) = remote w !! (remote_dir ++ "/" ++ n).
Proof.
  revert w. induction names as [| m names IH]; intros w Hn; [auto |].
  assert (Hm : m <> n) by (intros ->; apply Hn; now left).
  assert (Hn' : ~ In n names) by (intros H; apply Hn; now right).
  pose proof (download_one_frame remote_dir local_dir m n w Hm) as [F R].
  cbn [download_each]. unfold bind.
  destruct (download_one remote_dir local_dir m w) as [[[] | e] w1];
    cbn [snd] in *.
  - destruct (IH w1 Hn') as [F1 R1]. now rewrite F1, R1.
  - auto.
Qed.

Lemma download_untouched client_list remote_dir local_dir w n :
  (forall w0, snd (client_list remote_dir w0) = w0) ->
  (forall w0 names,
     fst (client_list remote_dir w0) = Ok names ->
     ~ In n (List.filter visible (tl names))) ->
  files (snd (download_webdav_files client_list remote_dir local_dir w))
    !! (local_dir ++ "/" ++ n) = files w !! (local_dir ++ "/" ++ n) /\
  remote (snd (download_webdav_files client_list remote_dir local_dir w))
    !! (remote_dir ++ "/" ++ n) = remote w !! (remote_dir ++ "/" ++ n).
Proof.
  intros Hread Hn.
  unfold download_webdav_files, webdav_request. unfold_m.
  destruct (webdav_fault w) as [e |] eqn:Hfault.
  - destruct (is_webdav e); auto.
  - wsimpl.
    match goal with
    | |- context [client_list remote_dir ?w0] =>
        pose proof (Hread w0) as Hw;
        pose proof (Hn w0) as Hnames;
        destruct (client_list remote_dir w0) as [[names | e] w1]
    end; cbn [fst snd] in *; subst w1.
    + destruct names as [| first rest]; [cbn [is_webdav snd]; auto |].
      specialize (Hnames _ eq_refl). cbn [tl] in Hnames.
      destruct (List.filter visible rest) as [| m l] eqn:Hl; [auto |].
      match goal with
      | |- context [download_each remote_dir local_dir ?l ?w0] =>
          pose proof (download_each_frame remote_dir local_dir l n w0 Hnames)
            as [F R];
          destruct (download_each remote_dir local_dir l w0) as [[[] | e] w2]
      end; cbn [snd] in *.
      * auto.
      * destruct (is_webdav e); cbn [snd]; wsimpl; auto.
    + destruct (is_webdav e); auto.
Qed.

(** X12. A listed name that begins with a point is never fetched: its
    local path and its remote entry are after [download_webdav_files]
    what they were before. *)
Theorem hidden_entries_are_not_fetched client_list remote_dir local_dir w n :
  (forall w0, snd (client_list remote_dir w0) = w0) ->
  starts_with "." n = true ->
  files (snd (download_webdav_files client_list remote_dir local_dir w))
    !! (local_dir ++ "/" ++ n) = files w !! (local_dir ++ "/" ++ n) /\
  remote (snd (download_webdav_files client_list remote_dir local_dir w))
    !! (remote_dir ++ "/" ++ n) = remote w !! (remote_dir ++ "/" ++ n).
Proof.
  intros Hread Hdot. apply download_untouched; [exact Hread |].
  intros w0 names _ Hin. apply filter_In in Hin as [_ Hv].
  unfold visible in Hv. rewrite Hdot in Hv. discriminate.
Qed.

(** X13. The first name of the listing is dropped whatever it is: unless
    it is listed a second time, it is not fetched and its remote entry
    stays. *)
Theorem first_entry_is_not_fetched
    client_list remote_dir local_dir w first rest :
  (forall w0, client_list remote_dir w0 = (Ok (first :: rest), w0)) ->
  ~ In first rest ->
  files (snd (download_webdav_files client_list remote_dir local_dir w))
    !! (local_dir ++ "/" ++ first) = files w !! (local_dir ++ "/" ++ first) /\
  remote (snd (download_webdav_files client_list remote_dir local_dir w))
    !! (remote_dir ++ "/" ++ first) = remote w !! (remote_dir ++ "/" ++ first).
Proof.
  intros Hls Hnot. apply download_untouched; [intros w0; now rewrite Hls |].
  intros w0 names E Hin. rewrite Hls in E. cbn in E. inversion E; subst.
  cbn [tl] in Hin. apply filter_In in Hin as [Hin _]. now apply Hnot.
Qed.

(** X14. When [client.list] returns no name at all, [del webdav_files[0]]
    raises [IndexError], which is no [WebDavException]: it leaves
    [download_webdav_files]. *)
Theorem empty_listing_raises client_list remote_dir local_dir w w1 :
  webdav_fault w = None ->
  client_list remote_dir
    (add_log (mk_log INFO
                "WebDAV directory '%s' exists. Retrieving contents..."
                [remote_dir]) w) = (Ok [], w1) ->
  download_webdav_files client_list remote_dir local_dir w =
    (Raise IndexError, w1).
Proof.
  intros Hfault Hls.
  unfold download_webdav_files, webdav_request. unfold_m.
  rewrite Hfault. wsimpl. rewrite Hls. reflexivity.
Qed.

Lemma hidden_entries_are_not_fetched_witness :
  files (snd (download_webdav_files
                (listing ["csv/"; ".DS_Store"; "export.csv"]) "csv" "/work"
                mailbox_world)) !! ("/work" ++ "/" ++ ".DS_Store") =
    files mailbox_world !! ("/work" ++ "/" ++ ".DS_Store") /\
  remote (snd (download_webdav_files
                 (listing ["csv/"; ".DS_Store"; "export.csv"]) "csv" "/work"
                 mailbox_world)) !! ("csv" ++ "/" ++ ".DS_Store") =
    remote mailbox_world !! ("csv" ++ "/" ++ ".DS_Store").
Proof.
  apply (hidden_entries_are_not_fetched
           (listing ["csv/"; ".DS_Store"; "export.csv"]) "csv" "/work"
           mailbox_world ".DS_Store");
    reflexivity.
Defined.

Lemma first_entry_is_not_fetched_witness :
  files (snd (download_webdav_files
                (listing ["export.csv"; "other.csv"]) "csv" "/work"
                mailbox_world)) !! ("/work" ++ "/" ++ "export.csv") =
    files mailbox_world !! ("/work" ++ "/" ++ "export.csv") /\
  remote (snd (download_webdav_files
                 (listing ["export.csv"; "other.csv"]) "csv" "/work"
                 mailbox_world)) !! ("csv" ++ "/" ++ "export.csv") =
    remote mailbox_world !! ("csv" ++ "/" ++ "export.csv").
Proof.
  apply (first_entry_is_not_fetched
           (listing ["export.csv"; "other.csv"]) "csv" "/work"
           mailbox_world "export.csv" ["other.csv"]);
    [reflexivity |].
  intros [H | []]. discriminate.
Defined.

Lemma empty_listing_raises_witness :
  download_webdav_files (listing []) "csv" "/work" mailbox_world =
    (Raise IndexError,
     add_log (mk_log INFO
                "WebDAV directory '%s' exists. Retrieving contents..."
                ["csv"]) mailbox_world).
Proof.
  apply (empty_listing_raises (listing []) "csv" "/work" mailbox_world);
    reflexivity.
Defined.

(** When the client works and every listed name can be written locally,
    the loop over the names returns normally and moves a name it meets:
    the content is in the local directory and the remote entry is gone. *)
Lemma download_each_moves remote_dir local_dir names n f :
  forall w,
  webdav_fault w = None ->
  (forall m, In m names -> writable w (local_dir ++ "/" ++ m) = true) ->
  (In n names /\ remote w !! (remote_dir ++ "/" ++ n) = Some f) \/
  (files w !! (local_dir ++ "/" ++ n) = Some f /\
   remote w !! (remote_dir ++ "/" ++ n) = None) ->
  exists w',
    download_each remote_dir local_dir names w = (Ok tt, w') /\
    files w' !! (local_dir ++ "/" ++ n) = Some f /\
    remote w' !! (remote_dir ++ "/" ++ n) = None.
Proof.
  induction names as [| m names IH]; intros w Hfault Hw Hst.
  - destruct Hst as [[[] _] | [F R]]. exists w. auto.
  - cbn [download_each]. unfold bind.
    rewrite (download_one_cases remote_dir local_dir m w Hfault).
    assert (Hw' : forall m', In m' names ->
                    writable w (local_dir ++ "/" ++ m') = true)
      by (intros m' H; apply Hw; now right).
    destruct (remote w !! (remote_dir ++ "/" ++ m)) as [g |] eqn:Hm.
    + rewrite (Hw m) by now left.
      apply IH; wsimpl; [assumption | assumption |].
      destruct (String.eqb_spec m n) as [-> | Hne].
      * right. rewrite lookup_insert_eq, lookup_delete_eq.
        destruct Hst as [[_ R] | [_ R]]; rewrite Hm in R; [| discriminate].
        inversion R; subst. auto.
      * assert (local_dir ++ "/" ++ m <> local_dir ++ "/" ++ n)
          by (intros E; apply Hne; eapply entry_path_inj; exact E).
        assert (remote_dir ++ "/" ++ m <> remote_dir ++ "/" ++ n)
          by (intros E; apply Hne; eapply entry_path_inj; exact E).
        rewrite lookup_insert_ne, lookup_delete_ne by assumption.
        destruct Hst as [[[E | Hin] R] | [F R]]; [congruence | auto | auto].
    + apply IH; wsimpl; [assumption | assumption |].
      destruct Hst as [[[E | Hin] R] | [F R]]; [| auto | auto].
      subst m. rewrite Hm in R. discriminate.
Qed.

(** X15. When the client works, a visible name listed after the first
    entry is moved: its content is afterwards in the local directory and
    its entry is gone from the remote directory. *)
Theorem listed_file_is_moved
    client_list remote_dir local_dir w first rest n f :
  webdav_fault w = None ->
  (forall w0, client_list remote_dir w0 = (Ok (first :: rest), w0)) ->
  In n rest ->
  starts_with "." n = false ->
  (forall m, In m rest -> writable w (local_dir ++ "/" ++ m) = true) ->
  remote w !! (remote_dir ++ "/" ++ n) = Some f ->
  exists w',
    download_webdav_files client_list remote_dir local_dir w = (Ok tt, w') /\
    files w' !! (local_dir ++ "/" ++ n) = Some f /\
    remote w' !! (remote_dir ++ "/" ++ n) = None.
Proof.
  intros Hfault Hls Hin Hv Hw Hr.
  assert (Hn : In n (List.filter visible rest)).
  { apply filter_In. split; [exact Hin |]. unfold visible. now rewrite Hv. }
  unfold download_webdav_files, webdav_request. unfold_m.
  rewrite Hfault. wsimpl. rewrite Hls. wsimpl.
  destruct (List.filter visible rest) as [| m l] eqn:Hl; [destruct Hn |].
  match goal with
  | |- context [download_each remote_dir local_dir ?l ?w0] =>
      destruct (download_each_moves remote_dir local_dir l n f w0)
        as (w' & Hd & F & R)
  end; wsimpl.
  - exact Hfault.
  - intros m' H. apply Hw. rewrite <- Hl in H. now apply filter_In in H.
  - left. auto.
  - exists w'. rewrite Hd. auto.
Qed.

Lemma listed_file_is_moved_witness :
  exists w',
    download_webdav_files (listing ["csv/"; ".DS_Store"; "export.csv"])
      "csv" "/work" mailbox_world = (Ok tt, w') /\
    files w' !! ("/work" ++ "/" ++ "export.csv") =
      Some (export (demo_records "DE12345678901234567890")) /\
    remote w' !! ("csv" ++ "/" ++ "export.csv") = None.
Proof.
  apply (listed_file_is_moved (listing ["csv/"; ".DS_Store"; "export.csv"])
           "csv" "/work" mailbox_world "csv/" [".DS_Store"; "export.csv"]
           "export.csv" (export (demo_records "DE12345678901234567890")));
    try reflexivity.
  right. left. reflexivity.
Defined.

(** X16. Against a client that raises a [WebDavException] the three
    functions that talk to the store return normally and change nothing
    but the log, to which each adds one error record. *)
Theorem webdav_failures_are_logged
    client_list (remote_dir local_dir path : string) (w : world) (msg : string) :
  webdav_fault w = Some (WebDavException msg) ->
  download_webdav_files client_list remote_dir local_dir w =
    (Ok tt,
     add_log (mk_log ERROR "WebDAV directory '%s' does not exist: %s"
                [remote_dir; msg]) w) /\
  upload_webdav_file path remote_dir w =
    (Ok tt,
     add_log (mk_log ERROR
                "Could not upload file '%s' to WebDAV directory '%s': %s"
                [path; remote_dir; msg]) w) /\
  delete_webdav_file path w =
    (Ok tt,
     add_log (mk_log ERROR "Could not delete file '%s' from WebDAV (%s)"
                [path; msg]) w).
Proof.
  intros Hfault.
  unfold download_webdav_files, upload_webdav_file, upload_sync,
    delete_webdav_file, clean, webdav_request.
  unfold_m. rewrite Hfault. auto.
Qed.

Lemma webdav_failures_are_logged_witness :
  download_webdav_files (listing ["csv/"; "export.csv"]) "csv" "/work"
    (faulty_world "/work/a.csv" [] (WebDavException "NoConnection")) =
    (Ok tt,
     add_log (mk_log ERROR "WebDAV directory '%s' does not exist: %s"
                ["csv"; "NoConnection"])
       (faulty_world "/work/a.csv" [] (WebDavException "NoConnection"))) /\
  upload_webdav_file "/work/a.csv" "csv"
    (faulty_world "/work/a.csv" [] (WebDavException "NoConnection")) =
    (Ok tt,
     add_log (mk_log ERROR
                "Could not upload file '%s' to WebDAV directory '%s': %s"
                ["/work/a.csv"; "csv"; "NoConnection"])
       (faulty_world "/work/a.csv" [] (WebDavException "NoConnection"))) /\
  delete_webdav_file "/work/a.csv"
    (faulty_world "/work/a.csv" [] (WebDavException "NoConnection")) =
    (Ok tt,
     add_log (mk_log ERROR "Could not delete file '%s' from WebDAV (%s)"
                ["/work/a.csv"; "NoConnection"])
       (faulty_world "/work/a.csv" [] (WebDavException "NoConnection"))).
Proof.
  apply (webdav_failures_are_logged (listing ["csv/"; "export.csv"])
           "csv" "/work" "/work/a.csv"
           (faulty_world "/work/a.csv" [] (WebDavException "NoConnection"))
           "NoConnection").
  reflexivity.
Defined.

(** ** A row that raises *)



(** ** The exceptions that leave [convert_file] *)

Lemma unlink_raises_in_place path w e w' :
  unlink path w = (Raise e, w') -> w' = w.
Proof.
  unfold unlink. destruct (files w !! path); intros H; now inversion H.
Qed.

(** X18. No exception raised inside [convert_data] leaves [convert_file].
    What leaves it is a [ValueError] from a date token of a ranged name,
    raised before anything was done, or what the final [unlink] of an
    unranged file raises. *)
Theorem convert_file_raises_only cfg file w e w' :
  convert_file cfg file w = (Raise e, w') ->
  (matches filename_re (basename file) = true /\
   (exists msg, e = ValueError msg) /\ w' = w) \/
  (matches filename_re (basename file) = false /\
   unlink file w' = (Raise e, w')).
Proof.
  unfold convert_file.
  destruct (matches filename_re (basename file)) eqn:Hm.
  - destruct (range_tokens _ Hm) as (H0 & piece & H1 & H2).
    unfold_m. rewrite H0, H1, H2.
    destruct (strptime_Ymd (text (take 8 (chars (basename file)))))
      as [s | e1] eqn:Hs.
    + destruct (strptime_Ymd (text (take 8 (drop 9 (chars (basename file))))))
        as [e2 | e2] eqn:He.
      * destruct (convert_data cfg file (Some s) (Some e2) w) as [[[] | e3] w3];
          discriminate.
      * intros H. inversion H; subst. left. repeat split; auto.
        eapply strptime_raises_value_error. exact He.
    + intros H. inversion H; subst. left. repeat split; auto.
      eapply strptime_raises_value_error. exact Hs.
  - unfold bind at 1. unfold try_except.
    destruct (convert_data cfg file None None w) as [[[] | e3] w3];
      unfold bind, logmsg;
      match goal with
      | |- context [unlink file ?w4] =>
          destruct (unlink file w4) as [[[] | e4] w5] eqn:Hu
      end;
      intros H; inversion H; subst; right; (split; [reflexivity |]);
      pose proof (unlink_raises_in_place _ _ _ _ Hu) as Hw; rewrite Hw in *;
      exact Hu.
Qed.

Lemma convert_file_raises_only_witness :
  (matches filename_re (basename "/work/export.csv") = true /\
   (exists msg, FileNotFoundError "/work/export.csv" = ValueError msg) /\
   snd (convert_file demo_cfg "/work/export.csv"
          (demo_world "/work/other.csv" [])) =
     demo_world "/work/other.csv" []) \/
  (matches filename_re (basename "/work/export.csv") = false /\
   unlink "/work/export.csv"
     (snd (convert_file demo_cfg "/work/export.csv"
             (demo_world "/work/other.csv" []))) =
     (Raise (FileNotFoundError "/work/export.csv"),
      snd (convert_file demo_cfg "/work/export.csv"
             (demo_world "/work/other.csv" [])))).
Proof.
  apply (convert_file_raises_only demo_cfg "/work/export.csv"
           (demo_world "/work/other.csv" [])
           (FileNotFoundError "/work/export.csv")
           (snd (convert_file demo_cfg "/work/export.csv"
                   (demo_world "/work/other.csv" [])))).
  vm_compute. reflexivity.
Defined.

(** ** The header of an unranged run *)

(** X19. In a run without a date range the header row binds the output
    path [<workdir>/<datestamp>-<accountName>-<iban>.csv] and leaves at
    that path a file that holds the column header and nothing else,
    whatever the path held before. *)
Theorem unranged_header_creates_output cfg fn hrow account_name iban w :
  get hrow Buchungsdatum = Some account_name ->
  get hrow Wertstellung = Some iban ->
  matches iban_re iban = true ->
  writable w (workdir cfg ++ "/" ++ datestamp cfg ++ "-" ++ account_name ++
              "-" ++ iban ++ ".csv") = true ->
  exists w',
    loop_body cfg None None fn (1%nat, hrow) w =
      (Ok (Some (workdir cfg ++ "/" ++ datestamp cfg ++ "-" ++ account_name ++
                 "-" ++ iban ++ ".csv")), w') /\
    files w' =
      <[workdir cfg ++ "/" ++ datestamp cfg ++ "-" ++ account_name ++
        "-" ++ iban ++ ".csv" := mk_file [] [Header]]> (files w) /\
    remote w' = remote w.
Proof.
  intros Ha Hi Hm Hw.
  rewrite (header_accepted cfg None None fn hrow account_name iban w Ha Hi Hm Hw).
  eexists. split; [reflexivity |]. auto.
Qed.

Lemma unranged_header_creates_output_witness :
  exists w',
    loop_body demo_cfg None None None
      (1%nat, header_row "DE12345678901234567890") stale_world =
      (Ok (Some (workdir demo_cfg ++ "/" ++ datestamp demo_cfg ++ "-" ++
                 "Girokonto" ++ "-" ++ "DE12345678901234567890" ++ ".csv")),
       w') /\
    files w' =
      <[workdir demo_cfg ++ "/" ++ datestamp demo_cfg ++ "-" ++ "Girokonto" ++
        "-" ++ "DE12345678901234567890" ++ ".csv" := mk_file [] [Header]]>
        (files stale_world) /\
    remote w' = remote stale_world.
Proof.
  apply (unranged_header_creates_output demo_cfg None
           (header_row "DE12345678901234567890") "Girokonto"
           "DE12345678901234567890" stale_world);
    reflexivity.
Defined.

(** ** The range pattern *)

(** X21. For a name the range pattern accepts, the start and end tokens
    that [split] yields are the first eight characters and the eight
    characters after the hyphen, whatever follows [.csv] in the name. *)
Theorem range_tokens_are_the_digit_groups (name : string) :
  matches filename_re name = true ->
  split_on "-" name !! 0%nat = Some (text (take 8 (chars name))) /\
  exists piece,
    split_on "-" name !! 1%nat = Some piece /\
    split_on "." piece !! 0%nat = Some (text (take 8 (drop 9 (chars name)))).
Proof. apply range_tokens. Qed.

Lemma range_tokens_are_the_digit_groups_witness :
  split_on "-" "20240101-20240131.csv-copy.2.csv" !! 0%nat =
    Some (text (take 8 (chars "20240101-20240131.csv-copy.2.csv"))) /\
  exists piece,
    split_on "-" "20240101-20240131.csv-copy.2.csv" !! 1%nat = Some piece /\
    split_on "." piece !! 0%nat =
      Some (text (take 8 (drop 9 (chars "20240101-20240131.csv-copy.2.csv")))).
Proof.
  apply (range_tokens_are_the_digit_groups "20240101-20240131.csv-copy.2.csv").
  reflexivity.
Defined.

(** ** The local files [convert_data] touches *)






(** ** Amounts in the German format *)

Lemma chars_text (l : list ascii) : chars (text l) = l.
Proof. apply list_ascii_of_string_of_list_ascii. Qed.

Lemma digit_is_no_separator (c : ascii) :
  is_digit c = true ->
  Ascii.eqb c "." = false /\ Ascii.eqb c "," = false /\
  Ascii.eqb c "-" = false /\ Ascii.eqb c "+" = false.
Proof.
  intros H.
  repeat split;
    match goal with
    | |- Ascii.eqb c ?x = false =>
        destruct (Ascii.eqb_spec c x) as [-> |]; [discriminate | reflexivity]
    end.
Qed.

Lemma filter_points_of_digits_and_points (l : list ascii) :
  forallb digit_or_point l = true ->
  List.filter not_point l = List.filter is_digit l.
Proof.
  induction l as [| c l IH]; [reflexivity |].
  cbn [forallb List.filter]. intros H. apply andb_true_iff in H as [Hc Hl].
  rewrite (IH Hl). unfold digit_or_point in Hc. unfold not_point.
  destruct (is_digit c) eqn:Hd.
  - destruct (digit_is_no_separator c Hd) as (-> & _). reflexivity.
  - cbn in Hc. rewrite Hc. reflexivity.
Qed.

Lemma map_commas_of_digits (l : list ascii) :
  forallb is_digit l = true -> List.map comma_to_point l = l.
Proof.
  induction l as [| c l IH]; [reflexivity |].
  cbn [forallb List.map]. intros H. apply andb_true_iff in H as [Hc Hl].
  rewrite (IH Hl). unfold comma_to_point.
  destruct (digit_is_no_separator c Hc) as (_ & -> & _). reflexivity.
Qed.

Lemma forallb_filter_digits (l : list ascii) :
  forallb is_digit (List.filter is_digit l) = true.
Proof.
  apply forallb_forall. intros c H. now apply filter_In in H.
Qed.

Lemma split_on_free (sep : ascii) (l : list ascii) :
  Forall (fun c => Ascii.eqb c sep = false) l ->
  split_on sep (text l) = [text l].
Proof.
  unfold text. induction 1 as [| c l Hc _ IH]; [reflexivity |].
  cbn [string_of_list_ascii split_on]. rewrite Hc, IH. reflexivity.
Qed.

Lemma split_on_prefix (sep : ascii) (l : list ascii) (rest : string) :
  Forall (fun c => Ascii.eqb c sep = false) l ->
  split_on sep (text l ++ String sep rest) = text l :: split_on sep rest.
Proof.
  unfold text. induction 1 as [| c l Hc _ IH].
  - change (string_of_list_ascii [] ++ String sep rest)
      with (String sep rest).
    cbn [split_on]. now rewrite Ascii.eqb_refl.
  - change (string_of_list_ascii (c :: l) ++ String sep rest)
      with (String c (string_of_list_ascii l ++ String sep rest)).
    cbn [split_on]. rewrite Hc, IH. reflexivity.
Qed.

Lemma unsigned_decimal (ds fp : list ascii) :
  forallb is_digit ds = true -> ds <> [] ->
  forallb is_digit fp = true -> fp <> [] ->
  match split_on "." (text (ds ++ "."%char :: fp)) with
  | [i] => spec_digits i
  | [i; f] => spec_digits i && spec_digits f
  | _ => false
  end = true.
Proof.
  intros Hds Nds Hfp Nfp.
  rewrite text_app.
  change (text ("."%char :: fp)) with (String "." (text fp)).
  rewrite split_on_prefix by (apply digits_avoid; [reflexivity | exact Hds]).
  rewrite split_on_free by (apply digits_avoid; [reflexivity | exact Hfp]).
  unfold spec_digits. rewrite !chars_text.
  destruct ds; [congruence |]. destruct fp; [congruence |].
  now rewrite Hds, Hfp.
Qed.

(** X23. An amount in the German format, that is an optional minus sign,
    digits with points between them, a comma and digits, is converted to
    a decimal numeral with the same sign and digits and a point for the
    comma. *)
Theorem german_amount_becomes_decimal (negative : bool) (ip fp : list ascii) :
  forallb digit_or_point ip = true ->
  List.filter is_digit ip <> [] ->
  forallb is_digit fp = true ->
  fp <> [] ->
  convert_amount
    (text ((if negative then ["-"%char] else []) ++ ip ++ ","%char :: fp)) =
    text ((if negative then ["-"%char] else []) ++
          List.filter is_digit ip ++ "."%char :: fp) /\
  spec_decimal_numeral
    (convert_amount
       (text ((if negative then ["-"%char] else []) ++ ip ++ ","%char :: fp)))
    = true.
Proof.
  intros Hip Nip Hfp Nfp.
  assert (E : convert_amount
                (text ((if negative then ["-"%char] else []) ++
                       ip ++ ","%char :: fp)) =
              text ((if negative then ["-"%char] else []) ++
                    List.filter is_digit ip ++ "."%char :: fp)).
  { rewrite <- (text_chars (convert_amount _)).
    rewrite chars_convert_amount, chars_text. f_equal.
    rewrite !List.filter_app, !List.map_app.
    cbn [List.filter not_point Ascii.eqb negb List.map].
    rewrite (filter_points_of_digits_and_points ip Hip).
    rewrite (map_commas_of_digits _ (forallb_filter_digits ip)).
    assert (Hf : List.filter not_point fp = fp).
    { clear Nfp. induction fp as [| c fp IH]; [reflexivity |].
      cbn [forallb] in Hfp. apply andb_true_iff in Hfp as [Hc Hl].
      cbn [List.filter]. unfold not_point at 1.
      destruct (digit_is_no_separator c Hc) as (-> & _).
      cbn [negb]. now rewrite IH. }
    change (not_point ",") with true. cbv iota. cbn [List.map].
    rewrite Hf, (map_commas_of_digits fp Hfp).
    destruct negative; reflexivity. }
  split; [exact E |].
  rewrite E. unfold spec_decimal_numeral.
  destruct negative.
  - change (text (["-"%char] ++ List.filter is_digit ip ++ "."%char :: fp)%list)
      with (String "-" (text (List.filter is_digit ip ++ "."%char :: fp)%list)).
    cbv iota beta.
    apply unsigned_decimal; auto using forallb_filter_digits.
  - cbn [app].
    pose proof (forallb_filter_digits ip) as Hd.
    destruct (List.filter is_digit ip) as [| c ds] eqn:Ef; [congruence |].
    assert (Hc : is_digit c = true)
      by (cbn [forallb] in Hd; now apply andb_true_iff in Hd as [? _]).
    pose proof (unsigned_decimal (c :: ds) fp Hd ltac:(discriminate) Hfp Nfp)
      as U.
    change (text ((c :: ds) ++ "."%char :: fp)%list)
      with (String c (text (ds ++ "."%char :: fp)%list)) in *.
    destruct c as [[] [] [] [] [] [] [] []]; try discriminate Hc; exact U.
Qed.

Lemma german_amount_becomes_decimal_witness :
  convert_amount
    (text ((if true then ["-"%char] else []) ++ chars "1.234" ++
           ","%char :: chars "56")) =
    text ((if true then ["-"%char] else []) ++
          List.filter is_digit (chars "1.234") ++ "."%char :: chars "56") /\
  spec_decimal_numeral
    (convert_amount
       (text ((if true then ["-"%char] else []) ++ chars "1.234" ++
              ","%char :: chars "56"))) = true.
Proof.
  apply (german_amount_becomes_decimal true (chars "1.234") (chars "56"));
    [reflexivity | discriminate | reflexivity | discriminate].
Defined.

Example german_amount_sample : convert_amount "-1.234,56" = "-1234.56".
Proof. reflexivity. Qed.
